(* ===================================================================== *)
(*  auto-encrypt: a shallow embedding of the ACME client's core           *)
(*                                                                       *)
(*  Sources embedded here:                                               *)
(*    lib/LetsEncryptServer.js   the server-type enumeration             *)
(*    lib/Identity.js            the identity store                      *)
(*    lib/Order.js               the Order singleton                     *)
(*    index.js                   main: the newAccount registration       *)
(*    ReadyForChallengeValidationRequest (acme-requests)                 *)
(*  lib/AcmeRequest.js and lib/Certificate.js are not part of the       *)
(*  sources at hand (only their tests are); what is needed of them is    *)
(*  modelled from the specification and marked as such.                  *)
(* ===================================================================== *)

From stdpp Require Import base option list gmap strings.
From Stdlib Require Import NArith Lia.

Local Open Scope string_scope.
Local Set Warnings "-register-all".

(* --------------------------------------------------------------------- *)
(*  JavaScript values, as far as the client uses them                    *)
(* --------------------------------------------------------------------- *)

(** An object literal keeps its keys in insertion order (JSON.stringify
    prints them in that order), so an object is an association list. *)
Inductive JValue : Type :=
| JUndefined : JValue
| JNull      : JValue
| JBool      : bool -> JValue
| JNumber    : N -> JValue
| JString    : string -> JValue
| JObject    : list (string * JValue) -> JValue.

(** [obj.key]: the first (and, in a literal, only) property of that name;
    [None] is JavaScript's [undefined] for a missing property. *)
Fixpoint assoc_get (key : string) (props : list (string * JValue)) : option JValue :=
  match props with
  | [] => None
  | (k, v) :: rest => if String.eqb k key then Some v else assoc_get key rest
  end.

Definition get (key : string) (v : JValue) : option JValue :=
  match v with
  | JObject props => assoc_get key props
  | _ => None
  end.

(* --------------------------------------------------------------------- *)
(*  Thrown errors and the result of a call that may throw                *)
(* --------------------------------------------------------------------- *)

(** The errors the modelled code raises, by the symbol or class it throws. *)
Inductive Thrown : Type :=
| UnsupportedIdentityType
| ENOENT
| JWKImportFailed
| StatusError (statusCode : nat) (responseBody : string)
| SyntaxError
| TypeError
| SingletonError
| AccountNotSetError
| UnknownCommandError
| NonceError
| AcmeRequestError (statusCode : nat)
| CertificateStateCorruptedError.

Inductive Result (A : Type) : Type :=
| Ok (a : A)
| Throw (e : Thrown).
Arguments Ok {A} a.
Arguments Throw {A} e.

Definition bind {A B : Type} (r : Result A) (k : A -> Result B) : Result B :=
  match r with
  | Ok a => k a
  | Throw e => Throw e
  end.

Notation "'try!' x <- r ; k" := (bind r (fun x => k))
  (at level 10, x pattern, r at level 100, k at level 200).

(* --------------------------------------------------------------------- *)
(*  Node's fs, as the identity store uses it                             *)
(* --------------------------------------------------------------------- *)

Module fs.

(** A file: its bytes and its permission bits. *)
Record file : Type := { data : string; mode : N }.

(** The files by path, and the process's umask. *)
Record t : Type := { files : gmap string file; umask : N }.

(** Permission bits and a umask, by their octal names: 0o600, 0o644,
    0o666 and 0o022. *)
Definition mode_0600 : N := 384.
Definition mode_0644 : N := 420.
Definition mode_0666 : N := 438.
Definition umask_0022 : N := 18.

Definition existsSync (d : t) (path : string) : bool :=
  bool_decide (is_Some (files d !! path)).

(** fs.readFileSync(path, 'utf-8'): throws ENOENT on a missing file. *)
Definition readFileSync (d : t) (path : string) : Result string :=
  match files d !! path with
  | Some f => Ok (data f)
  | None => Throw ENOENT
  end.

(** fs.writeFileSync(path, data, options): a string for [options] is the
    encoding, and the mode then is Node's default 0o666; a new file gets
    the mode less the umask's bits, an existing one keeps its mode. The
    directory of the path is taken to exist and to be writable: the
    errors Node raises otherwise (ENOENT for a missing directory) are
    outside this map of files. *)
Definition writeFileSync (d : t) (path : string) (contents : string)
    (mode_option : option N) : t :=
  let requested := default mode_0666 mode_option in
  let f :=
    match files d !! path with
    | Some old => {| data := contents; mode := mode old |}
    | None => {| data := contents; mode := N.ldiff requested (umask d) |}
    end in
  {| files := <[path := f]> (files d); umask := umask d |}.

End fs.

(* --------------------------------------------------------------------- *)
(*  The jose library's JWK interface                                     *)
(* --------------------------------------------------------------------- *)

(** What lib/Identity.js and index.js call of jose, as an interface: the
    key type, key generation from a key type, a size and the entropy
    drawn, PEM import (which throws on a malformed document, here [None]),
    PEM and JWK export and the RFC 7638 thumbprint. *)
Class JoseJWK : Type := {
  Key : Type;
  JWK_generate : string -> N -> N -> Key;
  JWK_asKey : string -> option Key;
  toPEM : Key -> bool -> string;
  toJWK : Key -> bool -> JValue;
  key_thumbprint : Key -> string
}.

(** jose.JWK.generateSync(kty, crvOrSize): the documented default size of
    an RSA key is 2048 bits. *)
Definition RSA_default_size : N := 2048.

Definition generateSync `{JoseJWK} (kty : string) (crvOrSize : option N)
    (entropy : N) : Key :=
  JWK_generate kty (default RSA_default_size crvOrSize) entropy.

(* --------------------------------------------------------------------- *)
(*  lib/Identity.js                                                      *)
(* --------------------------------------------------------------------- *)

Module Identity.
Section WithJose.
Context `{JoseJWK}.

(** An instance: the key (_key) and the private #identityFilePath. *)
Record t : Type := { _key : Key; filePath : string }.

Definition key (this : t) : Key := _key this.
Definition privatePEM (this : t) : string := toPEM (_key this) true.
Definition thumbprint (this : t) : string := key_thumbprint (_key this).
Definition privateJWK (this : t) : JValue := toJWK (_key this) true.
Definition publicJWK (this : t) : JValue := toJWK (_key this) false.

(** constructor (configuration, identityFilePathKey): the configuration
    is read as the object it is, a map from property names to paths;
    [entropy] is what key generation draws when it runs. The result is
    the instance and the file system as the constructor leaves it. *)
Definition constructor (configuration : gmap string string)
    (identityFilePathKey : string) (entropy : N) (disk : fs.t)
    : Result (t * fs.t) :=
  match configuration !! identityFilePathKey with
  | None => Throw UnsupportedIdentityType
  | Some identityFilePath =>
    if negb (fs.existsSync disk identityFilePath) then
      (* The identity file does not already exist, generate and save it. *)
      let this := {| _key := generateSync "RSA" None entropy;
                     filePath := identityFilePath |} in
      Ok (this, fs.writeFileSync disk identityFilePath (privatePEM this) None)
    else
      (* Load the key from storage. *)
      try! _privatePEM <- fs.readFileSync disk identityFilePath;
      match JWK_asKey _privatePEM with
      | Some k => Ok ({| _key := k; filePath := identityFilePath |}, disk)
      | None => Throw JWKImportFailed
      end
  end.

End WithJose.
End Identity.

(* --------------------------------------------------------------------- *)
(*  lib/LetsEncryptServer.js                                             *)
(* --------------------------------------------------------------------- *)

Module LetsEncryptServer.

(** static type = { PRODUCTION: 0, STAGING: 1, PEBBLE: 2, MOCK: 3 } *)
Definition PRODUCTION : nat := 0.
Definition STAGING    : nat := 1.
Definition PEBBLE     : nat := 2.
Definition MOCK       : nat := 3.

(** An instance holds the private field #type, here a non-negative
    integer, as the values of the enumeration are. *)
Record t : Type := constructor { type : nat }.

(** #names *)
Definition names : list string :=
  [ "production"; "staging"; "pebble"; "mock" ].

(** #endpoints *)
Definition endpoints : list string :=
  [ "https://acme-v02.api.letsencrypt.org/directory";
    "https://acme-staging-v02.api.letsencrypt.org/directory";
    "https://localhost:14000/dir";
    "http://localhost:9829/directory" ].

(** get name () / get endpoint (): array indexing; an index out of range
    reads [undefined], here [None]. *)
Definition name (s : t) : option string := names !! type s.
Definition endpoint (s : t) : option string := endpoints !! type s.

End LetsEncryptServer.

(* --------------------------------------------------------------------- *)
(*  HTTP exchanges and the bent request library                          *)
(* --------------------------------------------------------------------- *)

(** A flattened JWS: { payload, protected, signature }. *)
Record FlattenedJWS : Type :=
  { payload : string; protected : string; signature : string }.

Record HttpRequest : Type := {
  method : string;
  url : string;
  body : option FlattenedJWS;
  headers : list (string * string)
}.

Record HttpResponse : Type := {
  statusCode : nat;
  responseHeaders : list (string * string);
  responseBody : string
}.

(** response.headers[name]; a missing header reads [undefined]. *)
Fixpoint header (name : string) (hs : list (string * string)) : JValue :=
  match hs with
  | [] => JUndefined
  | (k, v) :: rest => if String.eqb k name then JString v else header name rest
  end.

(** What main and the request engine call of jose's JWS and of the
    platform: flattened signing (which throws when the key cannot sign
    with the header's algorithm), base64url and JSON.parse (which throws
    a SyntaxError, here [None]). *)
Class JoseJWS `{JoseJWK} : Type := {
  JWS_sign_flattened : JValue -> Key -> JValue -> Result FlattenedJWS;
  base64url : string -> string;
  JSON_parse : string -> option JValue
}.

Module bent.
Section WithNetwork.
Context `{JoseJWS}.

(** The remote end: what it answers to a request. *)
Variable network : HttpRequest -> HttpResponse.

(** Without status codes bent accepts 200 only. *)
Definition acceptable (statusCodes : list nat) : list nat :=
  match statusCodes with
  | [] => [200]
  | _ => statusCodes
  end.

(** The request bent sends for (path, body, headers): the path is
    appended to the base URL. *)
Definition build (method_ url_ path : string) (body_ : option FlattenedJWS)
    (headers_ : list (string * string)) : HttpRequest :=
  {| method := method_; url := url_ ++ path; body := body_; headers := headers_ |}.

(** bent(method, url, ...statusCodes)(path, body, headers) with no
    encoding: resolves to the response when its status is acceptable and
    throws a StatusError carrying the response body otherwise. *)
Definition request (method_ url_ : string) (statusCodes : list nat)
    (path : string) (body_ : option FlattenedJWS)
    (headers_ : list (string * string)) : Result HttpResponse :=
  let response := network (build method_ url_ path body_ headers_) in
  if bool_decide (statusCode response ∈ acceptable statusCodes)
  then Ok response
  else Throw (StatusError (statusCode response) (responseBody response)).

(** The same with the 'json' encoding: resolves to the decoded body. *)
Definition request_json (method_ url_ : string) (statusCodes : list nat)
    (path : string) (body_ : option FlattenedJWS)
    (headers_ : list (string * string)) : Result JValue :=
  try! response <- request method_ url_ statusCodes path body_ headers_;
  match JSON_parse (responseBody response) with
  | Some v => Ok v
  | None => Throw SyntaxError
  end.

End WithNetwork.
End bent.

(* --------------------------------------------------------------------- *)
(*  index.js                                                             *)
(* --------------------------------------------------------------------- *)

Module Index.
Section WithNetwork.
Context `{JoseJWS}.
Variable network : HttpRequest -> HttpResponse.

(** What main reads of the identity singleton and of the directory. *)
Record identity_t : Type := { publicKey : JValue; OKPKey : Key }.
Record directory_t : Type := { newNonceUrl : string; newAccountUrl : string }.

(** const payload = { termsOfServiceAgreed: true } *)
Definition main_payload : JValue :=
  JObject [ ("termsOfServiceAgreed", JBool true) ].

(** const protectedHeader = { alg, crv, jwk, nonce, url } *)
Definition main_protectedHeader (identity : identity_t) (newNonce : JValue)
    (directory : directory_t) : JValue :=
  JObject [ ("alg", JString "EdDSA");
            ("crv", JString "Ed25519");
            ("jwk", publicKey identity);
            ("nonce", newNonce);
            ("url", JString (newAccountUrl directory)) ].

(** The required headers as per RFC 8555 § 6.1 and § 6.2. *)
Definition main_headers : list (string * string) :=
  [ ("Content-Type", "application/jose+json");
    ("User-Agent", "small-tech.org-acme/1.0.0 node/12.16.0");
    ("Accept-Language", "en-US") ].

(** prepareRequest('POST', directory.newAccountUrl, 'json', 200, 201) *)
Definition newAccountRequest (directory : directory_t)
    : string -> option FlattenedJWS -> list (string * string) -> Result JValue :=
  bent.request_json network "POST" (newAccountUrl directory) [200; 201].

(** What a run of main has bound when it leaves the try/catch. *)
Record Run : Type := {
  run_newNonce : JValue;
  run_payload : JValue;
  run_protectedHeader : JValue;
  run_signedRequest : FlattenedJWS;
  run_newAccountResponse : option JValue;
  run_responseBody : option string
}.

(** main, from its first line to the end of the try/catch. *)
Definition main_register (identity : identity_t) (directory : directory_t)
    : Result Run :=
  (* Get a new nonce (RFC §7.2) *)
  try! newNonceResponse <-
    bent.request network "HEAD" (newNonceUrl directory) [] "" None [];
  let newNonce := header "replay-nonce" (responseHeaders newNonceResponse) in
  let payload_ := main_payload in
  let protectedHeader := main_protectedHeader identity newNonce directory in
  try! signed <- JWS_sign_flattened payload_ (OKPKey identity) protectedHeader;
  let signedRequest :=
    {| payload := base64url (payload signed);
       protected := base64url (protected signed);
       signature := signature signed |} in
  let attempt := newAccountRequest directory "" (Some signedRequest) main_headers in
  Ok {| run_newNonce := newNonce;
        run_payload := payload_;
        run_protectedHeader := protectedHeader;
        run_signedRequest := signedRequest;
        run_newAccountResponse :=
          match attempt with Ok v => Some v | Throw _ => None end;
        run_responseBody :=
          match attempt with
          | Throw (StatusError _ b) => Some b
          | _ => None
          end |}.

(** main to its end: after the try/catch it awaits responseBody and calls
    toString on it, which throws a TypeError when nothing was caught. *)
Definition main (identity : identity_t) (directory : directory_t) : Result Run :=
  try! run <- main_register identity directory;
  match run_responseBody run with
  | Some _ => Ok run
  | None => Throw TypeError
  end.

End WithNetwork.
End Index.

(* --------------------------------------------------------------------- *)
(*  lib/Order.js                                                         *)
(* --------------------------------------------------------------------- *)

Module Order.
Section WithNewOrderRequest.

(** (new NewOrderRequest()).execute(this.domains), of
    ./acme-requests/NewOrderRequest: [None] when constructing the request
    throws, otherwise the promise of the order's data that init stores. *)
Variable newOrderRequest : list string -> option JValue.

(** An Order object: this.domains and this.data. *)
Record object : Type := { domains : list string; data : option JValue }.

(** The state of a getSharedInstance promise. *)
Inductive Promise : Type :=
| Pending (call : nat)
| Fulfilled (value : option nat)
| Rejected.

(** The class: its two static fields, the Order objects constructed so
    far (a reference is an index), and the calls of getSharedInstance
    suspended at their await, each with whether its init() fulfilled. *)
Record Class : Type := {
  instance : option nat;
  isBeingInstantiatedViaSingletonFactoryMethod : bool;
  objects : list object;
  awaiting : list (nat * bool);
  calls : nat
}.

Definition initial : Class :=
  {| instance := None;
     isBeingInstantiatedViaSingletonFactoryMethod := false;
     objects := []; awaiting := []; calls := 0 |}.

Definition set_flag (b : bool) (C : Class) : Class :=
  {| instance := instance C;
     isBeingInstantiatedViaSingletonFactoryMethod := b;
     objects := objects C; awaiting := awaiting C; calls := calls C |}.

Definition set_instance (r : option nat) (C : Class) : Class :=
  {| instance := r;
     isBeingInstantiatedViaSingletonFactoryMethod :=
       isBeingInstantiatedViaSingletonFactoryMethod C;
     objects := objects C; awaiting := awaiting C; calls := calls C |}.

Definition set_objects (os : list object) (C : Class) : Class :=
  {| instance := instance C;
     isBeingInstantiatedViaSingletonFactoryMethod :=
       isBeingInstantiatedViaSingletonFactoryMethod C;
     objects := os; awaiting := awaiting C; calls := calls C |}.

Definition set_awaiting (ws : list (nat * bool)) (n : nat) (C : Class) : Class :=
  {| instance := instance C;
     isBeingInstantiatedViaSingletonFactoryMethod :=
       isBeingInstantiatedViaSingletonFactoryMethod C;
     objects := objects C; awaiting := ws; calls := n |}.

(** new Order(domains) *)
Definition constructor (domains_ : list string) (C : Class) : Result nat * Class :=
  (* Ensure singleton access. *)
  if negb (isBeingInstantiatedViaSingletonFactoryMethod C) then
    (Throw SingletonError, C)
  else
    let C1 := set_flag false C in
    (Ok (length (objects C1)),
     set_objects (objects C1 ++ [ {| domains := domains_; data := None |} ]) C1).

(** this.init(): an async function with no await of its own, so it runs
    to its end when called; [false] when its promise is rejected. *)
Definition init (this : nat) (C : Class) : bool * Class :=
  match objects C !! this with
  | None => (false, C)
  | Some o =>
    match newOrderRequest (domains o) with
    | None => (false, C)
    | Some d =>
      (true, set_objects (<[this := {| domains := domains o; data := Some d |}]> (objects C)) C)
    end
  end.

(** Order.getSharedInstance(domains) up to the point where it returns its
    promise: settled at once when the instance exists, pending at the
    await of init() otherwise. *)
Definition getSharedInstance (domains_ : list string) (C : Class) : Promise * Class :=
  match instance C with
  | None =>
    let C1 := set_flag true C in
    match constructor domains_ C1 with
    | (Throw _, C2) => (Rejected, C2)
    | (Ok r, C2) =>
      let C3 := set_instance (Some r) C2 in
      let '(fulfilled, C4) := init r C3 in
      (Pending (calls C4),
       set_awaiting (awaiting C4 ++ [ (calls C4, fulfilled) ]) (S (calls C4)) C4)
    end
  | Some _ => (Fulfilled (instance C), C)
  end.

(** The continuation of a suspended call: init()'s rejection is rethrown,
    otherwise the call returns Order.instance as it is then. *)
Definition resume (call : nat) (C : Class) : option Promise * Class :=
  match filter (fun w => bool_decide (w.1 = call)) (awaiting C) with
  | [] => (None, C)
  | (_, fulfilled) :: _ =>
    let C1 := set_awaiting (filter (fun w => bool_decide (w.1 <> call)) (awaiting C))
                           (calls C) C in
    (Some (if fulfilled then Fulfilled (instance C1) else Rejected), C1)
  end.

(** What the rest of the program can do with the class, one event loop
    turn at a time, and what it observes. *)
Inductive Event : Type :=
| DirectNew (domains_ : list string)
| CallGetSharedInstance (domains_ : list string)
| Resume (call : nat).

Inductive Outcome : Type :=
| Constructed (r : Result nat)
| Promised (p : Promise)
| Settled (p : option Promise).

Definition step (ev : Event) (C : Class) : Outcome * Class :=
  match ev with
  | DirectNew d => let '(r, C') := constructor d C in (Constructed r, C')
  | CallGetSharedInstance d => let '(p, C') := getSharedInstance d C in (Promised p, C')
  | Resume k => let '(p, C') := resume k C in (Settled p, C')
  end.

Fixpoint run (evs : list Event) (C : Class) : list Outcome * Class :=
  match evs with
  | [] => ([], C)
  | ev :: rest =>
    let '(o, C1) := step ev C in
    let '(os, C2) := run rest C1 in
    (o :: os, C2)
  end.

(** What an event may be seen to do once the instance is [r]. *)
Definition singleton_outcome (r : nat) (ev : Event) (o : Outcome) : Prop :=
  match ev with
  | DirectNew _ => o = Constructed (Throw SingletonError)
  | CallGetSharedInstance _ => o = Promised (Fulfilled (Some r))
  | Resume _ =>
    o = Settled None \/ o = Settled (Some Rejected)
    \/ o = Settled (Some (Fulfilled (Some r)))
  end.

(** Once the instance exists: it is [r], the flag is down, and the
    object [r] was constructed with the domains [d]. *)
Definition established (r : nat) (d : list string) (C : Class) : Prop :=
  instance C = Some r
  /\ isBeingInstantiatedViaSingletonFactoryMethod C = false
  /\ domains <$> objects C !! r = Some d.

End WithNewOrderRequest.
End Order.

(* --------------------------------------------------------------------- *)
(*  The signed request engine (lib/AcmeRequest.js)                       *)
(* --------------------------------------------------------------------- *)

Module AcmeRequest.
Section Engine.
Context `{JoseJWS}.

(** The ACME server: what it answers to the n-th exchange. *)
Variable server : nat -> HttpRequest -> HttpResponse.

(** Modelled from the spec: the account of lib/Account.js, which is
    missing (3: kid is the account URL, the Location of newAccount). *)
Record Account : Type := { kid : string }.

(** Modelled from the spec: lib/AcmeRequest.js is missing; this is the
    state its class keeps, after the specification's sections 4.C and 4.D:
    the directory, the account identity, the account once it is set, the
    nonce pool (a FIFO) and the number of exchanges made so far. *)
Record Class : Type := {
  directory : gmap string string;
  accountIdentity : Identity.t;
  account : option Account;
  nonces : list string;
  exchanges : nat
}.

Definition set_pool (ns : list string) (n : nat) (C : Class) : Class :=
  {| directory := directory C; accountIdentity := accountIdentity C;
     account := account C; nonces := ns; exchanges := n |}.

(** Modelled from the spec: the nonce pool's put() of lib/AcmeRequest.js,
    which is missing (4.C: every response's Replay-Nonce is put into the
    pool; a response without one adds nothing). *)
Definition put (response : HttpResponse) (C : Class) : Class :=
  match header "replay-nonce" (responseHeaders response) with
  | JString n => set_pool (nonces C ++ [n]) (exchanges C) C
  | _ => C
  end.

(** Modelled from the spec: the nonce pool's take() of lib/AcmeRequest.js,
    which is missing (4.C: returns a nonce; if the pool is empty, issues a
    HEAD to the directory's newNonce URL and extracts Replay-Nonce). *)
Definition take (C : Class) : Result (string * Class) :=
  match nonces C with
  | n :: rest => Ok (n, set_pool rest (exchanges C) C)
  | [] =>
    match directory C !! "newNonce" with
    | None => Throw UnknownCommandError
    | Some newNonceUrl =>
      let response := server (exchanges C)
        {| method := "HEAD"; url := newNonceUrl; body := None; headers := [] |} in
      match header "replay-nonce" (responseHeaders response) with
      | JString n => Ok (n, set_pool [] (S (exchanges C)) C)
      | _ => Throw NonceError
      end
    end
  end.

(** What prepare returns (the test destructures protectedHeader,
    signedRequest, httpsRequest and httpsHeaders), with the payload and
    the status codes the request was prepared for. *)
Record Prepared : Type := {
  protectedHeader : JValue;
  signedRequest : FlattenedJWS;
  httpsRequest : HttpRequest;
  httpsHeaders : list (string * string);
  preparedPayload : JValue;
  successCodes : list nat
}.

Definition fixedHeaders : list (string * string) :=
  [ ("Content-Type", "application/jose+json");
    ("User-Agent", "small-tech.org-acme/1.0.0 node/12.16.0");
    ("Accept-Language", "en-US") ].

(** Modelled from the spec: prepare of lib/AcmeRequest.js, which is
    missing (4.D steps 1 to 4): the URL is the explicit one if set, else
    the directory's for the command; the protected header has alg RS256,
    a nonce taken from the pool and the URL, then kid (the account's) if
    useKid and jwk (the account identity's public JWK) otherwise; the
    payload is signed with the account key. That useKid without an
    account throws accountNotSetError is what the test of prepare says. *)
Definition prepare (command : string) (payload_ : JValue) (useKid : bool)
    (successCodes_ : list nat) (explicitUrl : option string) (C : Class)
    : Result (Prepared * Class) :=
  try! url_ <-
    match explicitUrl with
    | Some u => Ok u
    | None =>
      match directory C !! command with
      | Some u => Ok u
      | None => Throw UnknownCommandError
      end
    end;
  try! (nonce, C1) <- take C;
  try! keyField <-
    (if useKid then
       match account C1 with
       | Some a => Ok ("kid", JString (kid a))
       | None => Throw AccountNotSetError
       end
     else Ok ("jwk", Identity.publicJWK (accountIdentity C1)));
  let protectedHeader_ :=
    JObject [ ("alg", JString "RS256"); ("nonce", JString nonce);
              ("url", JString url_); keyField ] in
  try! signed <-
    JWS_sign_flattened payload_ (Identity.key (accountIdentity C1)) protectedHeader_;
  Ok ({| protectedHeader := protectedHeader_;
         signedRequest := signed;
         httpsRequest := {| method := "POST"; url := url_;
                            body := Some signed; headers := fixedHeaders |};
         httpsHeaders := fixedHeaders;
         preparedPayload := payload_;
         successCodes := successCodes_ |}, C1).

(** Modelled from the spec: the POST of a prepared request, of
    lib/AcmeRequest.js, which is missing (4.D steps 4 and 5): the
    response's Replay-Nonce is harvested unconditionally. *)
Definition post (p : Prepared) (C : Class) : HttpResponse * Class :=
  let response := server (exchanges C) (httpsRequest p) in
  (response, put response (set_pool (nonces C) (S (exchanges C)) C)).

(** Modelled from the spec: 4.D step 7's test for a
    400 urn:ietf:params:acme:error:badNonce response. *)
Definition isBadNonce (response : HttpResponse) : bool :=
  bool_decide (statusCode response = 400) &&
  match JSON_parse (responseBody response) with
  | Some problem =>
    match get "type" problem with
    | Some (JString t) => String.eqb t "urn:ietf:params:acme:error:badNonce"
    | _ => false
    end
  | None => false
  end.

(** Modelled from the spec: execute of lib/AcmeRequest.js, which is
    missing (4.D steps 6 to 8): an expected status code returns the
    response; a badNonce is retried once, with a freshly prepared
    request; anything else raises AcmeRequestError. The result comes with
    the exchanges made, in order. *)
Definition execute (command : string) (payload_ : JValue) (useKid : bool)
    (successCodes_ : list nat) (explicitUrl : option string) (C : Class)
    : Result HttpResponse * list (Prepared * HttpResponse) * Class :=
  match prepare command payload_ useKid successCodes_ explicitUrl C with
  | Throw e => (Throw e, [], C)
  | Ok (p1, C1) =>
    let '(r1, C2) := post p1 C1 in
    if bool_decide (statusCode r1 ∈ successCodes_) then (Ok r1, [(p1, r1)], C2)
    else if isBadNonce r1 then
      match prepare command payload_ useKid successCodes_ explicitUrl C2 with
      | Throw e => (Throw e, [(p1, r1)], C2)
      | Ok (p2, C3) =>
        let '(r2, C4) := post p2 C3 in
        if bool_decide (statusCode r2 ∈ successCodes_)
        then (Ok r2, [(p1, r1); (p2, r2)], C4)
        else (Throw (AcmeRequestError (statusCode r2)), [(p1, r1); (p2, r2)], C4)
      end
    else (Throw (AcmeRequestError (statusCode r1)), [(p1, r1)], C2)
  end.

End Engine.
End AcmeRequest.

(* --------------------------------------------------------------------- *)
(*  lib/acme-requests/ReadyForChallengeValidationRequest.js              *)
(* --------------------------------------------------------------------- *)

Module ReadyForChallengeValidationRequest.
Section Request.
Context `{JoseJWS}.
Variable server : nat -> HttpRequest -> HttpResponse.

(** const emptyPayload = {} *)
Definition emptyPayload : JValue := JObject [].

(** execute (challengeUrl): super.execute with an empty command, the
    empty payload, useKid, the success codes [200] and the challenge URL. *)
Definition execute (challengeUrl : string) (C : AcmeRequest.Class)
    : Result HttpResponse * list (AcmeRequest.Prepared * HttpResponse)
      * AcmeRequest.Class :=
  AcmeRequest.execute server
    (* command =      *) "" (* see URL, below. *)
    (* payload =      *) emptyPayload
    (* useKid =       *) true
    (* successCodes = *) [200]
    (* url =          *) (Some challengeUrl)
    C.

End Request.
End ReadyForChallengeValidationRequest.

(* --------------------------------------------------------------------- *)
(*  The certificate store (lib/Certificate.js)                           *)
(* --------------------------------------------------------------------- *)

Module Certificate.

(** The four files of the store, by their names under settingsPath. *)
Definition certificatePath : string := "certificate.pem".
Definition certificateIdentityPath : string := "certificate-identity.pem".
Definition oldCertificatePath : string := "certificate.pem.old".
Definition oldCertificateIdentityPath : string := "certificate-identity.pem.old".

(** Modelled from the spec: the disk operations that the renewal
    protocol and the recovery table of 4.H name (rename, write, remove);
    lib/Certificate.js, which performs them, is missing. The disk maps a
    file's name to its bytes. *)
Inductive DiskOp : Type :=
| Rename (source target : string)
| WriteFile (path contents : string)
| Remove (path : string).

(** Modelled from the spec: the effect of one operation of 4.H on the
    disk (the file primitives are outside lib/Certificate.js, which is
    missing). A rename replaces the target and, as Node's renameSync
    does, throws ENOENT where the source does not exist; a write
    replaces the file; removing a file that does not exist is no error
    (fs-extra's removeSync). *)
Definition apply (d : gmap string string) (op : DiskOp)
    : Result (gmap string string) :=
  match op with
  | Rename source target =>
    match d !! source with
    | Some c => Ok (<[target := c]> (delete source d))
    | None => Throw ENOENT
    end
  | WriteFile path contents => Ok (<[path := contents]> d)
  | Remove path => Ok (delete path d)
  end.

(** The operations in order, up to the first that throws: the disk as it
    is left, and the error if there was one. *)
Fixpoint perform (ops : list DiskOp) (d : gmap string string)
    : gmap string string * option Thrown :=
  match ops with
  | [] => (d, None)
  | op :: rest =>
    match apply d op with
    | Ok d' => perform rest d'
    | Throw e => (d, Some e)
    end
  end.



Definition present (d : gmap string string) (path : string) : bool :=
  bool_decide (is_Some (d !! path)).



(** Modelled from the spec: the rows of the recovery table of 4.H. *)
Inductive RecoveryCase : Type :=
| Case1 | Case2a | Case2b | Case2c | Case3 | Case4 | Corrupted.

(** Modelled from the spec: the classification of the disk state by
    attemptToRecoverFromFailedRenewalAttemptIfNecessary of
    lib/Certificate.js, which is missing; each row's condition is the
    table's: (1) both current and both old exist; (2a) neither current
    file exists, both .old exist; (2b) only certificate.pem exists of the
    current files and certificate-identity.pem.old exists; (2c) only
    certificate-identity.pem exists and certificate.pem.old exists;
    (3) both current exist, no .old; (4) neither current nor .old exists;
    any other combination is corrupted. *)
Definition classify (d : gmap string string) : RecoveryCase :=
  let c := present d certificatePath in
  let i := present d certificateIdentityPath in
  let oc := present d oldCertificatePath in
  let oi := present d oldCertificateIdentityPath in
  if c && i && oc && oi then Case1
  else if negb c && negb i && oc && oi then Case2a
  else if c && negb i && oi then Case2b
  else if negb c && i && oc then Case2c
  else if c && i && negb oc && negb oi then Case3
  else if negb c && negb i && negb oc && negb oi then Case4
  else Corrupted.

(** Modelled from the spec: the action of each row of the recovery table
    (lib/Certificate.js is missing): (1) delete the .old files; (2a)
    rename .old to current; (2b, 2c) restore from .old, both files;
    (3, 4) no action on the disk. The specification gives no order for
    the two files: [identityFirst] chooses it. *)
Definition recoveryActions (identityFirst : bool) (k : RecoveryCase) : list DiskOp :=
  match k with
  | Case1 =>
    if identityFirst
    then [ Remove oldCertificateIdentityPath; Remove oldCertificatePath ]
    else [ Remove oldCertificatePath; Remove oldCertificateIdentityPath ]
  | Case2a | Case2b | Case2c =>
    if identityFirst
    then [ Rename oldCertificateIdentityPath certificateIdentityPath;
           Rename oldCertificatePath certificatePath ]
    else [ Rename oldCertificatePath certificatePath;
           Rename oldCertificateIdentityPath certificateIdentityPath ]
  | Case3 | Case4 | Corrupted => []
  end.

(** Modelled from the spec: attemptToRecoverFromFailedRenewalAttemptIfNecessary
    of lib/Certificate.js, which is missing: the row's action, or
    CertificateStateCorruptedError for a state no row describes. The
    result is the disk as recovery leaves it and the error it raised, if
    any. *)
Definition attemptToRecoverFromFailedRenewalAttemptIfNecessary
    (identityFirst : bool) (d : gmap string string)
    : gmap string string * option Thrown :=
  match classify d with
  | Corrupted => (d, Some CertificateStateCorruptedError)
  | k => perform (recoveryActions identityFirst k) d
  end.

(** The disk after recovery has run. *)
Definition afterRecovery (identityFirst : bool) (d : gmap string string)
    : gmap string string :=
  (attemptToRecoverFromFailedRenewalAttemptIfNecessary identityFirst d).1.

(** Reading the store: the current chain and the current identity. *)
Definition currentPair (d : gmap string string) : option string * option string :=
  (d !! certificatePath, d !! certificateIdentityPath).



End Certificate.

(* --------------------------------------------------------------------- *)
(*  test/lib/Certificate.js: setup                                       *)
(* --------------------------------------------------------------------- *)

Module CertificateTest.
Section Setup.

(** os.hostname(), os.homedir() and path.join, of the platform. *)
Variable hostname homedir : string.
Variable path_join : list string -> string.

(** A string or undefined read as a condition (process.env.STAGING ? :):
    undefined and the empty string are false. *)
Definition truthy (v : option string) : bool :=
  match v with
  | Some s => negb (String.eqb s "")
  | None => false
  end.

(** The path [p] is [dir] or lies under it. *)
Definition under (dir p : string) : bool :=
  String.eqb p dir || String.prefix (dir ++ "/") p.

(** fs.removeSync(path) of fs-extra: removes the file or the directory
    with all it holds; a path that does not exist is no error. *)
Definition removeSync (d : fs.t) (path : string) : fs.t :=
  {| fs.files := filter (fun entry => under path entry.1 = false) (fs.files d);
     fs.umask := fs.umask d |}.

(** What setup passes to new Configuration. *)
Record ConfigurationArguments : Type := {
  domains : option (list string);
  server : LetsEncryptServer.t;
  settingsPath : string
}.

(** const letsEncryptServerType =
      process.env.STAGING ? LetsEncryptServer.type.STAGING
                          : LetsEncryptServer.type.PEBBLE *)
Definition letsEncryptServerType (STAGING : option string) : nat :=
  if truthy STAGING then LetsEncryptServer.STAGING else LetsEncryptServer.PEBBLE.

(** const domains = { [PEBBLE]: [...], [STAGING]: [...] } *)
Definition domainsByType : gmap nat (list string) :=
  {[ LetsEncryptServer.PEBBLE := [ "localhost"; "pebble" ];
     LetsEncryptServer.STAGING := [ hostname; "www." ++ hostname ] ]}.

(** setup(): the settings directory of the tests is removed, and the
    configuration is made for the server type chosen by the environment
    variable STAGING. *)
Definition setup (STAGING : option string) (disk : fs.t)
    : ConfigurationArguments * fs.t :=
  let letsEncryptServerType_ := letsEncryptServerType STAGING in
  let customSettingsPath :=
    path_join [ homedir; ".small-tech.org"; "auto-encrypt"; "test" ] in
  let disk' := removeSync disk customSettingsPath in
  ({| domains := domainsByType !! letsEncryptServerType_;
      server := LetsEncryptServer.constructor letsEncryptServerType_;
      settingsPath := customSettingsPath |}, disk').

End Setup.
End CertificateTest.

(* --------------------------------------------------------------------- *)
(*  A small instance of the library interfaces                           *)
(* --------------------------------------------------------------------- *)

Module Sample.

(** Keys are their own PEM text: export is the identity and import
    accepts every document. *)
Definition jwk : JoseJWK :=
  {| Key := string;
     JWK_generate := fun kty size entropy => kty ++ " PRIVATE KEY";
     JWK_asKey := fun document => Some document;
     toPEM := fun k private => k;
     toJWK := fun k private => JObject [ ("kty", JString "RSA") ];
     key_thumbprint := fun k => k |}.

(** Signing keeps the key as the signature; the parser knows the
    badNonce problem document and reads anything else as {}. *)
Definition jws : @JoseJWS jwk :=
  @Build_JoseJWS jwk
    (fun payload_ (k : string) header_ =>
       Ok {| payload := "payload"; protected := "protected"; signature := k |})
    (fun s => s)
    (fun document =>
       if String.eqb document "badNonce"
       then Some (JObject [ ("type", JString "urn:ietf:params:acme:error:badNonce") ])
       else Some (JObject [])).

Definition settings : gmap string string :=
  {[ "accountIdentityPath" := "account-identity.pem" ]}.

(** An empty disk under the usual umask. *)
Definition emptyDisk : fs.t := {| fs.files := ∅; fs.umask := fs.umask_0022 |}.

(** A server that hands out a nonce on HEAD (status 200) and answers
    everything else with the given status. *)
Definition answering (status : nat) : HttpRequest -> HttpResponse :=
  fun request =>
    {| statusCode := if String.eqb (method request) "HEAD" then 200 else status;
       responseHeaders := [ ("replay-nonce", "nonce-1") ];
       responseBody := "" |}.

Definition identity : @Index.identity_t jwk :=
  {| Index.publicKey := JObject [ ("kty", JString "OKP") ];
     Index.OKPKey := "account key" : @Key jwk |}.

Definition directory : Index.directory_t :=
  {| Index.newNonceUrl := "https://localhost:14000/nonce-plz";
     Index.newAccountUrl := "https://localhost:14000/sign-me-up" |}.

Definition accountIdentity : @Identity.t jwk :=
  {| Identity._key := "account key" : @Key jwk;
     Identity.filePath := "account-identity.pem" |}.

(** An initialised request class with the account set and one nonce in
    the pool. *)
Definition class : @AcmeRequest.Class jwk :=
  {| AcmeRequest.directory :=
       {[ "newNonce" := "https://localhost:14000/nonce-plz";
          "newOrder" := "https://localhost:14000/order-plz" ]};
     AcmeRequest.accountIdentity := accountIdentity;
     AcmeRequest.account :=
       Some {| AcmeRequest.kid := "https://localhost:14000/my-account/1" |};
     AcmeRequest.nonces := [ "nonce-0" ];
     AcmeRequest.exchanges := 0 |}.

(** A server that rejects the first exchange with badNonce (and a fresh
    nonce) and answers the later ones with 200. *)
Definition badNonceOnce : nat -> HttpRequest -> HttpResponse :=
  fun n _ =>
    match n with
    | 0 => {| statusCode := 400;
              responseHeaders := [ ("replay-nonce", "nonce-1") ];
              responseBody := "badNonce" |}
    | _ => {| statusCode := 200;
              responseHeaders := [ ("replay-nonce", "nonce-2") ];
              responseBody := "" |}
    end.

(** A store at rest. *)
Definition store : gmap string string :=
  {[ Certificate.certificatePath := "chain 1";
     Certificate.certificateIdentityPath := "key 1" ]}.

End Sample.

(* ===================================================================== *)
(*  Theorems                                                             *)
(* ===================================================================== *)

(** C9: each of the four selectable server types maps to exactly its
    directory endpoint: PRODUCTION, STAGING, PEBBLE and MOCK, in that
    order, to the Let's Encrypt production directory, the staging
    directory, the local Pebble directory and the local mock directory. *)
Theorem server_type_endpoints :
  LetsEncryptServer.endpoint (LetsEncryptServer.constructor LetsEncryptServer.PRODUCTION)
    = Some "https://acme-v02.api.letsencrypt.org/directory"
  /\ LetsEncryptServer.endpoint (LetsEncryptServer.constructor LetsEncryptServer.STAGING)
    = Some "https://acme-staging-v02.api.letsencrypt.org/directory"
  /\ LetsEncryptServer.endpoint (LetsEncryptServer.constructor LetsEncryptServer.PEBBLE)
    = Some "https://localhost:14000/dir"
  /\ LetsEncryptServer.endpoint (LetsEncryptServer.constructor LetsEncryptServer.MOCK)
    = Some "http://localhost:9829/directory".
Proof. repeat split; reflexivity. Qed.

(* --------------------------------------------------------------------- *)
(*  Shared lemmas                                                        *)
(* --------------------------------------------------------------------- *)

Lemma append_empty_r (s : string) : s ++ "" = s.
Proof.
  induction s as [|c s IH]; [reflexivity|].
  change (String c (s ++ "") = String c s). now rewrite IH.
Qed.

Lemma existsSync_true (d : fs.t) (path : string) (f : fs.file) :
  fs.files d !! path = Some f -> fs.existsSync d path = true.
Proof. intros Hf. unfold fs.existsSync. rewrite Hf. apply bool_decide_eq_true. eauto. Qed.

Lemma existsSync_false (d : fs.t) (path : string) :
  fs.files d !! path = None -> fs.existsSync d path = false.
Proof.
  intros Hf. unfold fs.existsSync. rewrite Hf. apply bool_decide_eq_false.
  intros [x Hx]. discriminate.
Qed.

Lemma writeFileSync_new (d : fs.t) (path contents : string) :
  fs.files d !! path = None ->
  fs.files (fs.writeFileSync d path contents None) !! path
  = Some {| fs.data := contents; fs.mode := N.ldiff fs.mode_0666 (fs.umask d) |}.
Proof. intros Hf. unfold fs.writeFileSync. simpl. rewrite Hf. apply lookup_insert_eq. Qed.

Lemma writeFileSync_other (d : fs.t) (path other contents : string) (m : option N) :
  other <> path ->
  fs.files (fs.writeFileSync d path contents m) !! other = fs.files d !! other.
Proof. intros Hne. unfold fs.writeFileSync. simpl. now apply lookup_insert_ne. Qed.

(* --------------------------------------------------------------------- *)
(*  The identity store                                                   *)
(* --------------------------------------------------------------------- *)

Section IdentityFacts.
Context `{JoseJWK}.

(** The constructor on a path whose file exists: the file is read and
    imported, and the disk is left alone. *)
Lemma constructor_loads (configuration : gmap string string)
    (pathKey path : string) (entropy : N) (disk : fs.t) (f : fs.file) :
  configuration !! pathKey = Some path ->
  fs.files disk !! path = Some f ->
  Identity.constructor configuration pathKey entropy disk
  = match JWK_asKey (fs.data f) with
    | Some k => Ok ({| Identity._key := k; Identity.filePath := path |}, disk)
    | None => Throw JWKImportFailed
    end.
Proof.
  intros Hc Hf. unfold Identity.constructor. rewrite Hc.
  rewrite (existsSync_true _ _ _ Hf). simpl.
  unfold fs.readFileSync. rewrite Hf. reflexivity.
Qed.

(** The constructor on a path with no file: a key is generated and its
    private PEM written. *)
Lemma constructor_generates (configuration : gmap string string)
    (pathKey path : string) (entropy : N) (disk : fs.t) :
  configuration !! pathKey = Some path ->
  fs.files disk !! path = None ->
  Identity.constructor configuration pathKey entropy disk
  = Ok ({| Identity._key := JWK_generate "RSA" 2048 entropy;
           Identity.filePath := path |},
        fs.writeFileSync disk path (toPEM (JWK_generate "RSA" 2048 entropy) true) None).
Proof.
  intros Hc Hf. unfold Identity.constructor. rewrite Hc.
  rewrite (existsSync_false _ _ Hf). reflexivity.
Qed.

End IdentityFacts.

(** C3 (as the code has it): given a target file path, if the file
    exists the constructor reads it and imports its PEM with jose's asKey
    as the key, throwing when the import fails and leaving the disk as it
    is; if the file does not exist it generates an RSA key of jose's
    default size, 2048 bits, keeps it as the identity's key, and writes
    its private PEM to the path with no mode given, so that the new file
    has Node's default mode 0o666 less the umask; no other file changes. *)
Theorem identity_constructor_behaviour `{JoseJWK}
    (configuration : gmap string string) (pathKey path : string)
    (entropy : N) (disk : fs.t) :
  configuration !! pathKey = Some path ->
  (forall f, fs.files disk !! path = Some f ->
     Identity.constructor configuration pathKey entropy disk
     = match JWK_asKey (fs.data f) with
       | Some k => Ok ({| Identity._key := k; Identity.filePath := path |}, disk)
       | None => Throw JWKImportFailed
       end)
  /\ (fs.files disk !! path = None ->
      exists this disk',
        Identity.constructor configuration pathKey entropy disk = Ok (this, disk')
        /\ Identity.key this = JWK_generate "RSA" 2048 entropy
        /\ Identity.filePath this = path
        /\ fs.files disk' !! path
           = Some {| fs.data := Identity.privatePEM this;
                     fs.mode := N.ldiff fs.mode_0666 (fs.umask disk) |}
        /\ fs.umask disk' = fs.umask disk
        /\ forall other, other <> path ->
             fs.files disk' !! other = fs.files disk !! other).
Proof.
  intros Hc. split.
  - intros f Hf. now apply constructor_loads.
  - intros Hf. eexists _, _. split; [exact (constructor_generates _ _ _ _ _ Hc Hf)|].
    split; [reflexivity|]. split; [reflexivity|].
    split; [exact (writeFileSync_new _ _ _ Hf)|]. split; [reflexivity|].
    intros other Hne. now apply writeFileSync_other.
Qed.

Lemma identity_constructor_behaviour_witness :
  Sample.settings !! "accountIdentityPath" = Some "account-identity.pem"
  /\ exists this disk',
       @Identity.constructor Sample.jwk Sample.settings "accountIdentityPath" 7
         Sample.emptyDisk = Ok (this, disk')
       /\ fs.files disk' !! "account-identity.pem"
          = Some {| fs.data := @Identity.privatePEM Sample.jwk this;
                    fs.mode := N.ldiff fs.mode_0666 (fs.umask Sample.emptyDisk) |}.
Proof.
  split; [reflexivity|].
  destruct (@identity_constructor_behaviour Sample.jwk Sample.settings
              "accountIdentityPath" "account-identity.pem" 7 Sample.emptyDisk
              eq_refl) as [_ Hnew].
  destruct (Hnew eq_refl) as (this & disk' & Hrun & _ & _ & Hfile & _).
  exists this, disk'. split; [exact Hrun | exact Hfile].
Defined.

(** C3, as stated, fails on the file mode: on an empty disk under the
    umask 0o022 the constructor leaves the new identity file with mode
    0o644, not 0o600. *)
Lemma identity_file_mode_is_not_0600 :
  match @Identity.constructor Sample.jwk Sample.settings "accountIdentityPath" 7
          Sample.emptyDisk with
  | Ok (_, disk') => fs.mode <$> fs.files disk' !! "account-identity.pem"
  | Throw _ => None
  end = Some fs.mode_0644
  /\ fs.mode_0644 <> fs.mode_0600.
Proof. split; [vm_compute; reflexivity | discriminate]. Qed.

(** C8: an identity persisted by the store round-trips: when the
    constructor has generated a key and written its PEM, constructing an
    Identity again from the file left on disk loads a key whose
    privatePEM is exactly the bytes of the file, which are the PEM the
    first identity serialized; jose's import of a PEM it exported is
    taken to give back the key. *)
Theorem identity_roundtrip `{JoseJWK}
    (configuration : gmap string string) (pathKey path : string)
    (entropy entropy' : N) (disk disk' : fs.t) (first : Identity.t) :
  (forall k, JWK_asKey (toPEM k true) = Some k) ->
  configuration !! pathKey = Some path ->
  fs.files disk !! path = None ->
  Identity.constructor configuration pathKey entropy disk = Ok (first, disk') ->
  exists loaded,
    Identity.constructor configuration pathKey entropy' disk' = Ok (loaded, disk')
    /\ fs.readFileSync disk' path = Ok (Identity.privatePEM loaded)
    /\ Identity.privatePEM loaded = Identity.privatePEM first.
Proof.
  intros Hjose Hc Hf Hrun.
  rewrite (constructor_generates _ _ _ _ _ Hc Hf) in Hrun. simpl in Hrun.
  injection Hrun as Hfirst Hdisk.
  pose proof (writeFileSync_new disk path
                (toPEM (JWK_generate "RSA" 2048 entropy) true) Hf) as Hfile.
  rewrite Hdisk in Hfile.
  exists first. rewrite (constructor_loads _ _ _ _ _ _ Hc Hfile). simpl.
  rewrite Hjose. subst first. simpl. repeat split.
  unfold fs.readFileSync. rewrite Hfile. reflexivity.
Qed.

Lemma identity_roundtrip_witness :
  exists loaded disk',
    @Identity.constructor Sample.jwk Sample.settings "accountIdentityPath" 8 disk'
    = Ok (loaded, disk')
    /\ fs.readFileSync disk' "account-identity.pem"
       = Ok (@Identity.privatePEM Sample.jwk loaded).
Proof.
  destruct (@Identity.constructor Sample.jwk Sample.settings "accountIdentityPath" 7
              Sample.emptyDisk) as [[first disk']|e] eqn:Hrun;
    [|vm_compute in Hrun; discriminate].
  destruct (@identity_roundtrip Sample.jwk Sample.settings "accountIdentityPath"
              "account-identity.pem" 7 8 Sample.emptyDisk disk' first
              (fun k => eq_refl) eq_refl eq_refl Hrun)
    as (loaded & Hload & Hread & _).
  exists loaded, disk'. split; [exact Hload | exact Hread].
Defined.

(* --------------------------------------------------------------------- *)
(*  index.js: the newAccount registration                                *)
(* --------------------------------------------------------------------- *)

(** C1 (the code at the newAccount registration): the protected header
    that main builds names the algorithm EdDSA, with the curve Ed25519,
    and so not RS256, whatever the identity, the nonce and the directory. *)
Theorem main_protectedHeader_alg `{JoseJWK} (identity : Index.identity_t)
    (newNonce : JValue) (directory : Index.directory_t) :
  get "alg" (Index.main_protectedHeader identity newNonce directory)
  = Some (JString "EdDSA")
  /\ get "crv" (Index.main_protectedHeader identity newNonce directory)
     = Some (JString "Ed25519")
  /\ get "alg" (Index.main_protectedHeader identity newNonce directory)
     <> Some (JString "RS256").
Proof. repeat split. discriminate. Qed.

Section MainFacts.
Context `{JoseJWS}.
Variable network : HttpRequest -> HttpResponse.

(** bent's status check, for a request prepared with given codes. *)
Lemma request_accepts (method_ url_ path : string) (codes : list nat)
    (body_ : option FlattenedJWS) (headers_ : list (string * string)) :
  let response := network (bent.build method_ url_ path body_ headers_) in
  bent.request network method_ url_ codes path body_ headers_
  = if bool_decide (statusCode response ∈ bent.acceptable codes)
    then Ok response
    else Throw (StatusError (statusCode response) (responseBody response)).
Proof. reflexivity. Qed.

Lemma elem_of_200_201 (n : nat) : n ∈ [200; 201] <-> n = 200 \/ n = 201.
Proof.
  rewrite !elem_of_cons, elem_of_nil. tauto.
Qed.

(** What a run of main that reached the POST has bound. *)
Lemma main_register_run (identity : Index.identity_t)
    (directory : Index.directory_t) (run : Index.Run) :
  Index.main_register network identity directory = Ok run ->
  exists signed,
    Index.run_payload run = Index.main_payload
    /\ Index.run_protectedHeader run
       = Index.main_protectedHeader identity (Index.run_newNonce run) directory
    /\ JWS_sign_flattened Index.main_payload (Index.OKPKey identity)
         (Index.run_protectedHeader run) = Ok signed
    /\ Index.run_signedRequest run
       = {| payload := base64url (payload signed);
            protected := base64url (protected signed);
            signature := signature signed |}
    /\ Index.run_newAccountResponse run
       = match Index.newAccountRequest network directory ""
                 (Some (Index.run_signedRequest run)) Index.main_headers with
         | Ok v => Some v
         | Throw _ => None
         end
    /\ Index.run_responseBody run
       = match Index.newAccountRequest network directory ""
                 (Some (Index.run_signedRequest run)) Index.main_headers with
         | Throw (StatusError _ b) => Some b
         | _ => None
         end.
Proof.
  unfold Index.main_register. intros Hrun.
  destruct (bent.request network "HEAD" _ [] "" None []) as [nonceResponse|e];
    simpl in Hrun; [|discriminate].
  destruct (JWS_sign_flattened _ _ _) as [signed|e] eqn:Hsign;
    simpl in Hrun; [|discriminate].
  injection Hrun as <-. simpl. exists signed. repeat split. exact Hsign.
Qed.

End MainFacts.

(** After the try/catch: main ends normally only when a StatusError's
    body was caught. *)
Lemma main_after_registration `{JoseJWS}
    (network : HttpRequest -> HttpResponse) (identity : Index.identity_t)
    (directory : Index.directory_t) (run : Index.Run) :
  Index.main_register network identity directory = Ok run ->
  Index.main network identity directory
  = match Index.run_responseBody run with
    | Some _ => Ok run
    | None => Throw TypeError
    end.
Proof. intros Hrun. unfold Index.main. now rewrite Hrun. Qed.

(** C6: the registration in main posts to the directory's newAccount
    URL a request signed over the payload with termsOfServiceAgreed: true
    and a protected header that carries the JWK (jwk, no kid) and the
    newAccount URL; the request is prepared to accept the statuses 200
    and 201, and exactly under these the call does not throw a
    StatusError: the response is then the decoded body, and under any
    other status nothing is bound to the response and the error's body
    is kept. *)
Theorem newAccount_registration `{JoseJWS}
    (network : HttpRequest -> HttpResponse) (identity : Index.identity_t)
    (directory : Index.directory_t) (run : Index.Run) :
  Index.main_register network identity directory = Ok run ->
  let request :=
    bent.build "POST" (Index.newAccountUrl directory) ""
      (Some (Index.run_signedRequest run)) Index.main_headers in
  let response := network request in
  method request = "POST"
  /\ url request = Index.newAccountUrl directory
  /\ get "url" (Index.run_protectedHeader run)
     = Some (JString (Index.newAccountUrl directory))
  /\ get "jwk" (Index.run_protectedHeader run) = Some (Index.publicKey identity)
  /\ get "kid" (Index.run_protectedHeader run) = None
  /\ get "termsOfServiceAgreed" (Index.run_payload run) = Some (JBool true)
  /\ (exists signed,
        JWS_sign_flattened (Index.run_payload run) (Index.OKPKey identity)
          (Index.run_protectedHeader run) = Ok signed
        /\ Index.run_signedRequest run
           = {| payload := base64url (payload signed);
                protected := base64url (protected signed);
                signature := signature signed |})
  /\ (statusCode response = 200 \/ statusCode response = 201 ->
      Index.run_newAccountResponse run = JSON_parse (responseBody response)
      /\ Index.run_responseBody run = None)
  /\ (~ (statusCode response = 200 \/ statusCode response = 201) ->
      Index.run_newAccountResponse run = None
      /\ Index.run_responseBody run = Some (responseBody response)).
Proof.
  intros Hrun request response.
  destruct (main_register_run network identity directory run Hrun)
    as (signed & Hpayload & Hheader & Hsign & Hsigned & Hresponse & Hbody).
  split; [reflexivity|].
  split; [apply append_empty_r|].
  rewrite Hheader. do 4 (split; [try reflexivity|]).
  { rewrite Hpayload. reflexivity. }
  split.
  { exists signed. rewrite Hpayload, <- Hheader. split; assumption. }
  unfold Index.newAccountRequest, bent.request_json in Hresponse, Hbody.
  rewrite request_accepts in Hresponse, Hbody.
  fold request in Hresponse, Hbody. fold response in Hresponse, Hbody.
  simpl bent.acceptable in Hresponse, Hbody.
  split.
  - intros Hok. apply elem_of_200_201 in Hok.
    rewrite (bool_decide_eq_true_2 _ Hok) in Hresponse, Hbody.
    simpl in Hresponse, Hbody. rewrite Hresponse, Hbody.
    destruct (JSON_parse (responseBody response)); split; reflexivity.
  - intros Hno. rewrite <- elem_of_200_201 in Hno.
    rewrite (bool_decide_eq_false_2 _ Hno) in Hresponse, Hbody.
    simpl in Hresponse, Hbody. split; assumption.
Qed.

Lemma newAccount_registration_witness :
  exists run,
    @Index.main_register Sample.jwk Sample.jws (Sample.answering 201)
      Sample.identity Sample.directory = Ok run
    /\ Index.run_newAccountResponse run = Some (JObject [])
    /\ Index.run_responseBody run = None.
Proof.
  destruct (@Index.main_register Sample.jwk Sample.jws (Sample.answering 201)
              Sample.identity Sample.directory) as [run|e] eqn:Hrun;
    [|vm_compute in Hrun; discriminate].
  exists run. split; [reflexivity|].
  destruct (@newAccount_registration Sample.jwk Sample.jws (Sample.answering 201)
              Sample.identity Sample.directory run Hrun)
    as (_ & _ & _ & _ & _ & _ & _ & Hok & _).
  exact (Hok (or_intror eq_refl)).
Defined.

(* --------------------------------------------------------------------- *)
(*  The Order singleton                                                  *)
(* --------------------------------------------------------------------- *)

Section OrderFacts.
Variable newOrderRequest : list string -> option JValue.

Local Abbreviation flag := Order.isBeingInstantiatedViaSingletonFactoryMethod.

Lemma constructor_throws (d : list string) (C : Order.Class) :
  flag C = false -> Order.constructor d C = (Throw SingletonError, C).
Proof. intros Hflag. unfold Order.constructor. now rewrite Hflag. Qed.

Lemma init_keeps (r : nat) (C : Order.Class) :
  let C' := (Order.init newOrderRequest r C).2 in
  Order.instance C' = Order.instance C /\ flag C' = flag C
  /\ Order.domains <$> Order.objects C' !! r = Order.domains <$> Order.objects C !! r.
Proof.
  unfold Order.init. destruct (Order.objects C !! r) as [o|] eqn:Ho.
  - destruct (newOrderRequest (Order.domains o)); cbn [snd];
      [|now rewrite Ho].
    repeat split. cbn [Order.objects Order.set_objects].
    now rewrite list_lookup_insert_eq by (now apply lookup_lt_Some in Ho).
  - cbn [snd]. now rewrite Ho.
Qed.

Lemma resume_keeps (call : nat) (C : Order.Class) :
  let '(p, C') := Order.resume call C in
  Order.instance C' = Order.instance C /\ flag C' = flag C
  /\ Order.objects C' = Order.objects C
  /\ (p = None \/ p = Some Order.Rejected
      \/ p = Some (Order.Fulfilled (Order.instance C))).
Proof.
  unfold Order.resume.
  destruct (filter _ (Order.awaiting C)) as [|[k fulfilled] rest]; simpl.
  - repeat split. now left.
  - repeat split. destruct fulfilled; [right; right|right; left]; reflexivity.
Qed.

(** The flag is down between any two events. *)
Lemma step_flag (ev : Order.Event) (C : Order.Class) :
  flag C = false -> flag (Order.step newOrderRequest ev C).2 = false.
Proof.
  intros Hflag. destruct ev as [d|d|k]; simpl.
  - now rewrite (constructor_throws d C Hflag).
  - unfold Order.getSharedInstance. destruct (Order.instance C); [exact Hflag|].
    unfold Order.constructor. simpl.
    destruct (Order.init _ _ _) as [fulfilled C4] eqn:Hinit. simpl.
    pose proof (init_keeps (length (Order.objects C))
      (Order.set_instance (Some (length (Order.objects C)))
         (Order.set_objects
            (Order.objects C ++ [ {| Order.domains := d; Order.data := None |} ])
            (Order.set_flag false (Order.set_flag true C))))) as Hk.
    simpl in Hk. rewrite Hinit in Hk. simpl in Hk. tauto.
  - pose proof (resume_keeps k C) as Hk.
    destruct (Order.resume k C) as [p C']. simpl. destruct Hk as (_ & -> & _). exact Hflag.
Qed.

Lemma run_flag (evs : list Order.Event) (C : Order.Class) :
  flag C = false -> flag (Order.run newOrderRequest evs C).2 = false.
Proof.
  revert C. induction evs as [|ev evs IH]; intros C Hflag; simpl; [exact Hflag|].
  pose proof (step_flag ev C Hflag) as Hstep.
  destruct (Order.step newOrderRequest ev C) as [o C1]. simpl in Hstep.
  specialize (IH C1 Hstep).
  destruct (Order.run newOrderRequest evs C1) as [os C2]. exact IH.
Qed.

(** The first call creates the instance. *)
Lemma first_call (d : list string) (C : Order.Class) :
  Order.instance C = None -> flag C = false ->
  Order.established (length (Order.objects C)) d
    (Order.getSharedInstance newOrderRequest d C).2.
Proof.
  intros Hnone Hflag. unfold Order.getSharedInstance. rewrite Hnone.
  unfold Order.constructor. simpl.
  destruct (Order.init _ _ _) as [fulfilled C4] eqn:Hinit. simpl.
  pose proof (init_keeps (length (Order.objects C))
    (Order.set_instance (Some (length (Order.objects C)))
       (Order.set_objects
          (Order.objects C ++ [ {| Order.domains := d; Order.data := None |} ])
          (Order.set_flag false (Order.set_flag true C))))) as Hk.
  simpl in Hk. rewrite Hinit in Hk. simpl in Hk.
  destruct Hk as (Hi & Hf & Ho). unfold Order.established. simpl.
  repeat split; [assumption..|].
  rewrite Ho, lookup_app_r, Nat.sub_diag; [reflexivity|lia].
Qed.

(** Every later event leaves the instance in place and is answered with
    it. *)
Lemma step_singleton (r : nat) (d : list string) (ev : Order.Event)
    (C : Order.Class) :
  Order.established r d C ->
  Order.established r d (Order.step newOrderRequest ev C).2
  /\ Order.singleton_outcome r ev (Order.step newOrderRequest ev C).1.
Proof.
  intros (Hi & Hf & Ho). destruct ev as [d'|d'|k]; simpl.
  - rewrite (constructor_throws d' C Hf). simpl. repeat split; assumption.
  - unfold Order.getSharedInstance. rewrite Hi. simpl.
    repeat split; assumption.
  - pose proof (resume_keeps k C) as Hk.
    destruct (Order.resume k C) as [p C']. simpl.
    destruct Hk as (Hi' & Hf' & Ho' & Hp).
    split; [unfold Order.established; rewrite Hi', Hf', Ho'; repeat split; assumption|].
    rewrite Hi in Hp. destruct Hp as [->| [->| ->]]; tauto.
Qed.

Lemma run_singleton (r : nat) (d : list string) (evs : list Order.Event)
    (C : Order.Class) :
  Order.established r d C ->
  Order.established r d (Order.run newOrderRequest evs C).2
  /\ Forall2 (Order.singleton_outcome r) evs (Order.run newOrderRequest evs C).1.
Proof.
  revert C. induction evs as [|ev evs IH]; intros C HC; simpl.
  - split; [exact HC | constructor].
  - destruct (step_singleton r d ev C HC) as [HC1 Hout].
    destruct (Order.step newOrderRequest ev C) as [o C1]. simpl in HC1, Hout.
    destruct (IH C1 HC1) as [HC2 Houts].
    destruct (Order.run newOrderRequest evs C1) as [os C2]. simpl in *.
    split; [exact HC2 | now constructor].
Qed.

End OrderFacts.

(** C10: Order is a strict singleton. In every state the class can be
    in after any events (direct constructions, calls of getSharedInstance
    and resumptions of suspended calls), calling the constructor directly
    throws and changes nothing; and when a call of getSharedInstance is
    the first (no instance exists yet), it creates an instance with its
    domains, and from then on, whatever the later events and whatever
    domains are passed, every call of getSharedInstance is answered at
    once with that same instance, every suspended call that resumes
    returns it (or rethrows init's error), and the instance keeps the
    first call's domains. *)
Theorem order_is_a_singleton (newOrderRequest : list string -> option JValue)
    (before later : list Order.Event) (domains0 domains' : list string) :
  let C := (Order.run newOrderRequest before Order.initial).2 in
  Order.constructor domains' C = (Throw SingletonError, C)
  /\ (Order.instance C = None ->
      let C1 := (Order.getSharedInstance newOrderRequest domains0 C).2 in
      let C2 := (Order.run newOrderRequest later C1).2 in
      exists r,
        Order.instance C1 = Some r
        /\ Order.domains <$> Order.objects C1 !! r = Some domains0
        /\ Forall2 (Order.singleton_outcome r) later
             (Order.run newOrderRequest later C1).1
        /\ Order.getSharedInstance newOrderRequest domains' C2
           = (Order.Fulfilled (Some r), C2)
        /\ Order.domains <$> Order.objects C2 !! r = Some domains0).
Proof.
  intros C.
  assert (Hflag : Order.isBeingInstantiatedViaSingletonFactoryMethod C = false)
    by (apply run_flag; reflexivity).
  split; [now apply constructor_throws|].
  intros Hnone C1 C2.
  pose proof (first_call newOrderRequest domains0 C Hnone Hflag) as H1.
  fold C1 in H1.
  destruct (run_singleton newOrderRequest _ _ later C1 H1) as [H2 Houts].
  fold C2 in H2.
  exists (length (Order.objects C)).
  destruct H1 as (Hi1 & _ & Ho1). destruct H2 as (Hi2 & _ & Ho2).
  repeat split; try assumption.
  unfold Order.getSharedInstance. now rewrite Hi2.
Qed.

Lemma order_is_a_singleton_witness :
  let nothing : list string -> option JValue := fun _ => None in
  let C1 := (Order.getSharedInstance nothing ["localhost"] Order.initial).2 in
  let C2 := (Order.run nothing
               [ Order.CallGetSharedInstance ["pebble"]; Order.Resume 0;
                 Order.DirectNew ["localhost"] ] C1).2 in
  exists r,
    Order.instance C1 = Some r
    /\ Order.getSharedInstance nothing ["example.org"] C2
       = (Order.Fulfilled (Some r), C2).
Proof.
  intros nothing C1 C2.
  destruct (order_is_a_singleton nothing []
              [ Order.CallGetSharedInstance ["pebble"]; Order.Resume 0;
                Order.DirectNew ["localhost"] ]
              ["localhost"] ["example.org"]) as [_ Hfirst].
  destruct (Hfirst eq_refl) as (r & Hi & _ & _ & Hget & _).
  exists r. split; [exact Hi | exact Hget].
Defined.

(* --------------------------------------------------------------------- *)
(*  The signed request engine                                            *)
(* --------------------------------------------------------------------- *)

Section EngineFacts.
Context `{JoseJWS}.
Variable server : nat -> HttpRequest -> HttpResponse.

Lemma take_keeps (C C1 : AcmeRequest.Class) (nonce : string) :
  AcmeRequest.take server C = Ok (nonce, C1) ->
  AcmeRequest.account C1 = AcmeRequest.account C
  /\ AcmeRequest.accountIdentity C1 = AcmeRequest.accountIdentity C
  /\ AcmeRequest.directory C1 = AcmeRequest.directory C.
Proof.
  unfold AcmeRequest.take. destruct (AcmeRequest.nonces C) as [|n rest].
  - destruct (AcmeRequest.directory C !! "newNonce"); [|discriminate].
    destruct (header _ _); try discriminate.
    intros [= _ <-]. done.
  - intros [= _ <-]. done.
Qed.

Lemma post_keeps (p : AcmeRequest.Prepared) (C : AcmeRequest.Class) :
  let C' := (AcmeRequest.post server p C).2 in
  AcmeRequest.account C' = AcmeRequest.account C
  /\ AcmeRequest.accountIdentity C' = AcmeRequest.accountIdentity C
  /\ AcmeRequest.directory C' = AcmeRequest.directory C.
Proof.
  unfold AcmeRequest.post, AcmeRequest.put. cbn [snd].
  destruct (header _ _); done.
Qed.

(** What a prepared request is made of. *)
Lemma prepare_spec (command : string) (payload_ : JValue) (useKid : bool)
    (codes : list nat) (explicitUrl : option string)
    (C C1 : AcmeRequest.Class) (p : AcmeRequest.Prepared) :
  AcmeRequest.prepare server command payload_ useKid codes explicitUrl C
  = Ok (p, C1) ->
  exists url_ nonce keyField,
    (explicitUrl = Some url_
     \/ explicitUrl = None /\ AcmeRequest.directory C !! command = Some url_)
    /\ (if useKid
        then exists a, AcmeRequest.account C = Some a
                       /\ keyField = ("kid", JString (AcmeRequest.kid a))
        else keyField = ("jwk", Identity.publicJWK (AcmeRequest.accountIdentity C)))
    /\ AcmeRequest.protectedHeader p
       = JObject [ ("alg", JString "RS256"); ("nonce", JString nonce);
                   ("url", JString url_); keyField ]
    /\ JWS_sign_flattened payload_ (Identity.key (AcmeRequest.accountIdentity C))
         (AcmeRequest.protectedHeader p) = Ok (AcmeRequest.signedRequest p)
    /\ AcmeRequest.httpsRequest p
       = {| method := "POST"; url := url_;
            body := Some (AcmeRequest.signedRequest p);
            headers := AcmeRequest.fixedHeaders |}
    /\ AcmeRequest.preparedPayload p = payload_
    /\ AcmeRequest.successCodes p = codes
    /\ AcmeRequest.account C1 = AcmeRequest.account C
    /\ AcmeRequest.accountIdentity C1 = AcmeRequest.accountIdentity C.
Proof.
  unfold AcmeRequest.prepare. intros Hp.
  assert (Hurl : exists url_,
    (explicitUrl = Some url_
     \/ explicitUrl = None /\ AcmeRequest.directory C !! command = Some url_)
    /\ match explicitUrl with
       | Some u => Ok u
       | None => match AcmeRequest.directory C !! command with
                 | Some u => Ok u
                 | None => Throw UnknownCommandError
                 end
       end = Ok url_).
  { destruct explicitUrl as [u|]; [exists u; split; [now left | reflexivity]|].
    destruct (AcmeRequest.directory C !! command) as [u|]; [|discriminate].
    exists u. split; [now right | reflexivity]. }
  destruct Hurl as (url_ & Hwhich & Hurl). rewrite Hurl in Hp. simpl in Hp.
  destruct (AcmeRequest.take server C) as [[nonce C0]|e] eqn:Htake;
    simpl in Hp; [|discriminate].
  destruct (take_keeps _ _ _ Htake) as (Ha & Hi & _).
  rewrite Ha, Hi in Hp.
  exists url_, nonce.
  destruct useKid.
  - destruct (AcmeRequest.account C) as [a|] eqn:Hacc; simpl in Hp; [|discriminate].
    destruct (JWS_sign_flattened _ _ _) as [signed|e] eqn:Hsign;
      simpl in Hp; [|discriminate].
    injection Hp as <- <-. exists ("kid", JString (AcmeRequest.kid a)).
    simpl. repeat split; eauto.
  - simpl in Hp.
    destruct (JWS_sign_flattened _ _ _) as [signed|e] eqn:Hsign;
      simpl in Hp; [|discriminate].
    injection Hp as <- <-.
    exists ("jwk", Identity.publicJWK (AcmeRequest.accountIdentity C)).
    simpl. repeat split; eauto.
Qed.

End EngineFacts.

(** C4: a request prepared with useKid has the account's URL as kid in
    its protected header and no jwk; a request prepared without useKid
    has the account identity's public JWK as jwk (and no kid); the
    protected header is the one the request is signed with and the
    signed request is the body sent. The newAccount header that main
    builds likewise carries jwk, the identity's public key, and no kid. *)
Theorem prepared_header_names_the_key `{JoseJWS}
    (server : nat -> HttpRequest -> HttpResponse)
    (command : string) (payload_ : JValue) (useKid : bool) (codes : list nat)
    (explicitUrl : option string) (C C1 : AcmeRequest.Class)
    (p : AcmeRequest.Prepared)
    (identity : Index.identity_t) (newNonce : JValue)
    (directory : Index.directory_t) :
  AcmeRequest.prepare server command payload_ useKid codes explicitUrl C
  = Ok (p, C1) ->
  (useKid = true ->
     exists a, AcmeRequest.account C = Some a
       /\ get "kid" (AcmeRequest.protectedHeader p)
          = Some (JString (AcmeRequest.kid a))
       /\ get "jwk" (AcmeRequest.protectedHeader p) = None)
  /\ (useKid = false ->
      get "jwk" (AcmeRequest.protectedHeader p)
      = Some (Identity.publicJWK (AcmeRequest.accountIdentity C))
      /\ get "kid" (AcmeRequest.protectedHeader p) = None)
  /\ JWS_sign_flattened payload_ (Identity.key (AcmeRequest.accountIdentity C))
       (AcmeRequest.protectedHeader p) = Ok (AcmeRequest.signedRequest p)
  /\ body (AcmeRequest.httpsRequest p) = Some (AcmeRequest.signedRequest p)
  /\ get "jwk" (Index.main_protectedHeader identity newNonce directory)
     = Some (Index.publicKey identity)
  /\ get "kid" (Index.main_protectedHeader identity newNonce directory) = None.
Proof.
  intros Hp.
  destruct (prepare_spec server _ _ _ _ _ _ _ _ Hp)
    as (url_ & nonce & keyField & _ & Hkey & Hheader & Hsign & Hrequest & _).
  rewrite Hheader, Hrequest.
  split; [|split]; [| |repeat split; try reflexivity; now rewrite <- Hheader].
  - intros ->. destruct Hkey as (a & Ha & ->). exists a. repeat split. exact Ha.
  - intros ->. subst keyField. repeat split.
Qed.

Lemma prepared_header_names_the_key_witness :
  exists p C1,
    @AcmeRequest.prepare Sample.jwk Sample.jws (fun _ => Sample.answering 200)
      "newOrder" (JObject [ ("aPayload", JBool true) ]) true [200] None
      Sample.class = Ok (p, C1)
    /\ get "kid" (AcmeRequest.protectedHeader p)
       = Some (JString "https://localhost:14000/my-account/1").
Proof.
  destruct (@AcmeRequest.prepare Sample.jwk Sample.jws (fun _ => Sample.answering 200)
              "newOrder" (JObject [ ("aPayload", JBool true) ]) true [200] None
              Sample.class) as [[p C1]|e] eqn:Hp;
    [|vm_compute in Hp; discriminate].
  exists p, C1. split; [reflexivity|].
  destruct (@prepared_header_names_the_key Sample.jwk Sample.jws
              (fun _ => Sample.answering 200) _ _ _ _ _ _ _ _
              Sample.identity JUndefined Sample.directory Hp) as [Hkid _].
  destruct (Hkid eq_refl) as (a & Ha & Hget & _).
  injection Ha as <-. exact Hget.
Defined.

Section ReadyFacts.
Context `{JoseJWS}.
Variable server : nat -> HttpRequest -> HttpResponse.

(** What a readiness signal looks like on the wire. *)
Lemma ready_request (challengeUrl : string) (C C1 : AcmeRequest.Class)
    (p : AcmeRequest.Prepared) :
  AcmeRequest.prepare server "" ReadyForChallengeValidationRequest.emptyPayload
    true [200] (Some challengeUrl) C = Ok (p, C1) ->
  (method (AcmeRequest.httpsRequest p) = "POST"
   /\ url (AcmeRequest.httpsRequest p) = challengeUrl
   /\ AcmeRequest.preparedPayload p = JObject []
   /\ (exists a, AcmeRequest.account C = Some a
         /\ get "kid" (AcmeRequest.protectedHeader p)
            = Some (JString (AcmeRequest.kid a)))
   /\ get "jwk" (AcmeRequest.protectedHeader p) = None
   /\ JWS_sign_flattened (JObject [])
        (Identity.key (AcmeRequest.accountIdentity C))
        (AcmeRequest.protectedHeader p) = Ok (AcmeRequest.signedRequest p)
   /\ body (AcmeRequest.httpsRequest p) = Some (AcmeRequest.signedRequest p))
  /\ AcmeRequest.account C1 = AcmeRequest.account C
  /\ AcmeRequest.accountIdentity C1 = AcmeRequest.accountIdentity C.
Proof.
  intros Hp.
  destruct (prepare_spec server _ _ _ _ _ _ _ _ Hp)
    as (url_ & nonce & keyField & Hurl & (a & Ha & ->) & Hheader & Hsign
        & Hrequest & Hpayload & _ & Hacc & Hid).
  destruct Hurl as [[= <-]|[? _]]; [|discriminate].
  rewrite Hrequest, Hheader. repeat split; try assumption.
  - exists a. split; [exact Ha | reflexivity].
  - now rewrite <- Hheader.
Qed.

(** With the account set, a nonce at hand and a signature made, the
    readiness signal is posted. *)
Lemma ready_posts (challengeUrl : string) (C C1 : AcmeRequest.Class)
    (a : AcmeRequest.Account) (nonce : string) (signed : FlattenedJWS) :
  AcmeRequest.account C = Some a ->
  AcmeRequest.take server C = Ok (nonce, C1) ->
  JWS_sign_flattened (JObject []) (Identity.key (AcmeRequest.accountIdentity C))
    (JObject [ ("alg", JString "RS256"); ("nonce", JString nonce);
               ("url", JString challengeUrl);
               ("kid", JString (AcmeRequest.kid a)) ]) = Ok signed ->
  let request :=
    {| method := "POST"; url := challengeUrl; body := Some signed;
       headers := AcmeRequest.fixedHeaders |} in
  let response := server (AcmeRequest.exchanges C1) request in
  let result := ReadyForChallengeValidationRequest.execute server challengeUrl C in
  exists p rest,
    result.1.2 = (p, response) :: rest
    /\ AcmeRequest.httpsRequest p = request
    /\ AcmeRequest.preparedPayload p = JObject []
    /\ AcmeRequest.protectedHeader p
       = JObject [ ("alg", JString "RS256"); ("nonce", JString nonce);
                   ("url", JString challengeUrl);
                   ("kid", JString (AcmeRequest.kid a)) ]
    /\ (statusCode response = 200 -> result.1.1 = Ok response /\ rest = []).
Proof.
  intros Hacc Htake Hsign request response result. subst result.
  unfold ReadyForChallengeValidationRequest.execute, AcmeRequest.execute.
  destruct (take_keeps server _ _ _ Htake) as (Ha & Hi & _).
  assert (Hp : AcmeRequest.prepare server ""
                 ReadyForChallengeValidationRequest.emptyPayload true [200]
                 (Some challengeUrl) C
               = Ok ({| AcmeRequest.protectedHeader :=
                          JObject [ ("alg", JString "RS256"); ("nonce", JString nonce);
                                    ("url", JString challengeUrl);
                                    ("kid", JString (AcmeRequest.kid a)) ];
                        AcmeRequest.signedRequest := signed;
                        AcmeRequest.httpsRequest := request;
                        AcmeRequest.httpsHeaders := AcmeRequest.fixedHeaders;
                        AcmeRequest.preparedPayload := JObject [];
                        AcmeRequest.successCodes := [200] |}, C1)).
  { unfold AcmeRequest.prepare. simpl. rewrite Htake. simpl.
    rewrite Ha, Hacc. simpl. rewrite Hi.
    unfold ReadyForChallengeValidationRequest.emptyPayload. rewrite Hsign.
    reflexivity. }
  rewrite Hp. clear Hp. unfold AcmeRequest.post.
  cbn [AcmeRequest.httpsRequest]. fold response.
  destruct (bool_decide (statusCode response ∈ [200])) eqn:Hs1.
  { eexists _, []. repeat split. }
  apply bool_decide_eq_false_1 in Hs1. rewrite list_elem_of_singleton in Hs1.
  assert (Hno : statusCode response = 200 -> False) by exact Hs1.
  destruct (AcmeRequest.isBadNonce response).
  2:{ eexists _, _. split; [reflexivity|]. do 3 (split; [reflexivity|]).
      intros Hs. destruct (Hno Hs). }
  destruct (AcmeRequest.prepare server "" _ true [200] (Some challengeUrl) _)
    as [[p2 C3]|e].
  2:{ eexists _, _. split; [reflexivity|]. do 3 (split; [reflexivity|]).
      intros Hs. destruct (Hno Hs). }
  cbn beta iota zeta.
  match goal with |- context [bool_decide ?P] => destruct (bool_decide P) end;
    (eexists _, _; split; [reflexivity|]; do 3 (split; [reflexivity|]);
     intros Hs; destruct (Hno Hs)).
Qed.

End ReadyFacts.

(** A badNonce answer is retried once: against a server that rejects
    the first exchange with badNonce and accepts the second, the
    readiness signal makes exactly two exchanges, the second with the
    nonce the rejection carried, and succeeds. *)
Example badNonce_is_retried_once :
  let result :=
    @ReadyForChallengeValidationRequest.execute Sample.jwk Sample.jws
      Sample.badNonceOnce "https://localhost:14000/chalZ/1" Sample.class in
  match result.1.1 with Ok response => Some (statusCode response) | Throw _ => None end
  = Some 200
  /\ map (fun x => (get "nonce" (AcmeRequest.protectedHeader x.1), statusCode x.2))
       result.1.2
     = [ (Some (JString "nonce-0"), 400); (Some (JString "nonce-1"), 200) ].
Proof. cbv zeta. split; vm_compute; reflexivity. Qed.

(** C5: to signal readiness for challenge validation the client sends,
    in every exchange it makes (one, or two after a badNonce), a POST to
    the challenge URL whose payload is the empty object (not the empty
    string), signed under a protected header with the account's kid and
    no jwk; the call succeeds with a response exactly when the last
    response received has status 200; and the signal is sent: with the
    account set, a nonce taken and the signature made, the first exchange
    is that POST (alg RS256, the nonce, the challenge URL and the kid in
    its protected header, the signed empty object as its body, the three
    fixed headers) with the server's answer to it, and when that answer
    has status 200 it is the result and the only exchange. *)
Theorem ready_for_challenge_validation `{JoseJWS}
    (server : nat -> HttpRequest -> HttpResponse)
    (challengeUrl : string) (C : AcmeRequest.Class) :
  let result := ReadyForChallengeValidationRequest.execute server challengeUrl C in
  Forall (fun exchange =>
            let p := exchange.1 in
            method (AcmeRequest.httpsRequest p) = "POST"
            /\ url (AcmeRequest.httpsRequest p) = challengeUrl
            /\ AcmeRequest.preparedPayload p = JObject []
            /\ (exists a, AcmeRequest.account C = Some a
                  /\ get "kid" (AcmeRequest.protectedHeader p)
                     = Some (JString (AcmeRequest.kid a)))
            /\ get "jwk" (AcmeRequest.protectedHeader p) = None
            /\ JWS_sign_flattened (JObject [])
                 (Identity.key (AcmeRequest.accountIdentity C))
                 (AcmeRequest.protectedHeader p) = Ok (AcmeRequest.signedRequest p)
            /\ body (AcmeRequest.httpsRequest p) = Some (AcmeRequest.signedRequest p))
         result.1.2
  /\ JObject [] <> JString ""
  /\ (forall response,
        result.1.1 = Ok response
        <-> (exists p, last result.1.2 = Some (p, response))
            /\ statusCode response = 200)
  /\ forall a nonce C1 signed,
       AcmeRequest.account C = Some a ->
       AcmeRequest.take server C = Ok (nonce, C1) ->
       JWS_sign_flattened (JObject [])
         (Identity.key (AcmeRequest.accountIdentity C))
         (JObject [ ("alg", JString "RS256"); ("nonce", JString nonce);
                    ("url", JString challengeUrl);
                    ("kid", JString (AcmeRequest.kid a)) ]) = Ok signed ->
       let request :=
         {| method := "POST"; url := challengeUrl; body := Some signed;
            headers := AcmeRequest.fixedHeaders |} in
       let response := server (AcmeRequest.exchanges C1) request in
       exists p rest,
         result.1.2 = (p, response) :: rest
         /\ AcmeRequest.httpsRequest p = request
         /\ AcmeRequest.preparedPayload p = JObject []
         /\ AcmeRequest.protectedHeader p
            = JObject [ ("alg", JString "RS256"); ("nonce", JString nonce);
                        ("url", JString challengeUrl);
                        ("kid", JString (AcmeRequest.kid a)) ]
         /\ (statusCode response = 200 -> result.1.1 = Ok response /\ rest = []).
Proof.
  intros result.
  enough (Hexchanges : _ /\ _ /\ _) by
    (destruct Hexchanges as (Hall & Hempty & Hresult);
     split; [exact Hall|]; split; [exact Hempty|]; split; [exact Hresult|];
     intros a nonce C1 signed; apply ready_posts).
  subst result.
  unfold ReadyForChallengeValidationRequest.execute, AcmeRequest.execute.
  destruct (AcmeRequest.prepare server "" _ true [200] (Some challengeUrl) C)
    as [[p1 C1]|e] eqn:Hp1.
  2:{ simpl. split; [constructor|]. split; [discriminate|].
      intros response. split; [discriminate | intros [[p [=]] _]]. }
  destruct (ready_request server _ _ _ _ Hp1) as (Hr1 & Ha1 & Hi1).
  destruct (AcmeRequest.post server p1 C1) as [r1 C2] eqn:Hpost1.
  pose proof (post_keeps server p1 C1) as Hk. rewrite Hpost1 in Hk.
  cbn [snd] in Hk. destruct Hk as (Ha2 & Hi2 & _).
  destruct (bool_decide (statusCode r1 ∈ [200])) eqn:Hs1.
  { apply bool_decide_eq_true_1, list_elem_of_singleton in Hs1. simpl.
    split; [repeat constructor; apply Hr1|]. split; [discriminate|].
    intros response. split.
    - intros [= <-]. split; [now exists p1 | exact Hs1].
    - intros [[p [= _ <-]] _]. reflexivity. }
  apply bool_decide_eq_false_1 in Hs1. rewrite list_elem_of_singleton in Hs1.
  destruct (AcmeRequest.isBadNonce r1).
  2:{ simpl. split; [repeat constructor; apply Hr1|]. split; [discriminate|].
      intros response. split; [discriminate|].
      intros [[p [= _ <-]] Hs]. contradiction. }
  destruct (AcmeRequest.prepare server "" _ true [200] (Some challengeUrl) C2)
    as [[p2 C3]|e] eqn:Hp2.
  2:{ simpl. split; [repeat constructor; apply Hr1|]. split; [discriminate|].
      intros response. split; [discriminate|].
      intros [[p [= _ <-]] Hs]. contradiction. }
  destruct (ready_request server _ _ _ _ Hp2) as (Hr2 & _).
  rewrite Ha2, Ha1, Hi2, Hi1 in Hr2.
  destruct (AcmeRequest.post server p2 C3) as [r2 C4].
  destruct (bool_decide (statusCode r2 ∈ [200])) eqn:Hs2.
  { apply bool_decide_eq_true_1, list_elem_of_singleton in Hs2. simpl.
    split; [repeat constructor; try apply Hr1; apply Hr2|]. split; [discriminate|].
    intros response. split.
    - intros [= <-]. split; [now exists p2 | exact Hs2].
    - intros [[p [= _ <-]] _]. reflexivity. }
  apply bool_decide_eq_false_1 in Hs2. rewrite list_elem_of_singleton in Hs2.
  simpl. split; [repeat constructor; try apply Hr1; apply Hr2|]. split; [discriminate|].
  intros response. split; [discriminate|].
  intros [[p [= _ <-]] Hs]. contradiction.
Qed.

Lemma ready_for_challenge_validation_witness :
  let result :=
    @ReadyForChallengeValidationRequest.execute Sample.jwk Sample.jws
      (fun _ => Sample.answering 200) "https://localhost:14000/chalZ/1"
      Sample.class in
  exists p response,
    result.1.2 = [(p, response)]
    /\ result.1.1 = Ok response
    /\ statusCode response = 200
    /\ method (AcmeRequest.httpsRequest p) = "POST"
    /\ url (AcmeRequest.httpsRequest p) = "https://localhost:14000/chalZ/1"
    /\ AcmeRequest.preparedPayload p = JObject []
    /\ get "kid" (AcmeRequest.protectedHeader p)
       = Some (JString "https://localhost:14000/my-account/1")
    /\ get "nonce" (AcmeRequest.protectedHeader p) = Some (JString "nonce-0").
Proof.
  intros result.
  destruct (@ready_for_challenge_validation Sample.jwk Sample.jws
              (fun _ => Sample.answering 200) "https://localhost:14000/chalZ/1"
              Sample.class) as (_ & _ & _ & Hposts).
  destruct (Hposts {| AcmeRequest.kid := "https://localhost:14000/my-account/1" |}
              "nonce-0"
              (AcmeRequest.set_pool [] 0 Sample.class)
              {| payload := "payload"; protected := "protected";
                 signature := "account key" |}
              eq_refl eq_refl eq_refl)
    as (p & rest & Hexchanges & Hrequest & Hpayload & Hheader & Hok).
  destruct (Hok eq_refl) as [Hresult ->].
  exists p, ((fun _ => Sample.answering 200) 0
               {| method := "POST"; url := "https://localhost:14000/chalZ/1";
                  body := Some {| payload := "payload"; protected := "protected";
                                  signature := "account key" |};
                  headers := AcmeRequest.fixedHeaders |}).
  split; [exact Hexchanges|]. split; [exact Hresult|].
  rewrite Hrequest, Hpayload, Hheader. repeat split.
Defined.

(* --------------------------------------------------------------------- *)
(*  The certificate store: crash recovery                                *)
(* --------------------------------------------------------------------- *)

Section StoreFacts.
Import Certificate.



End StoreFacts.












(** The recovery cases that the test of the certificate store sets up,
    one after the other, from a store at rest: (1) stale .old files
    beside the current ones; (2-a) the current files moved to .old;
    (2-b) the certificate copied and the identity moved to .old; (2-c)
    the identity copied and the certificate moved to .old. Each time
    recovery reads the state as the table's row of that name, raises no
    error and leaves the original pair and no .old file, in either order
    of the two files. *)
Example recovery_test_cases (identityFirst : bool) :
  let recover := Certificate.afterRecovery identityFirst in
  let errors d :=
    (Certificate.attemptToRecoverFromFailedRenewalAttemptIfNecessary identityFirst d).2 in
  let case1 :=
    (Certificate.perform
       [ Certificate.WriteFile Certificate.oldCertificatePath "dummy old certificate";
         Certificate.WriteFile Certificate.oldCertificateIdentityPath
           "dummy old certificate identity" ] Sample.store).1 in
  let case2a :=
    (Certificate.perform
       [ Certificate.Rename Certificate.certificateIdentityPath
           Certificate.oldCertificateIdentityPath;
         Certificate.Rename Certificate.certificatePath Certificate.oldCertificatePath ]
       (recover case1)).1 in
  let case2b :=
    (Certificate.perform
       [ Certificate.WriteFile Certificate.oldCertificatePath "chain 1";
         Certificate.Rename Certificate.certificateIdentityPath
           Certificate.oldCertificateIdentityPath ]
       (recover case2a)).1 in
  let case2c :=
    (Certificate.perform
       [ Certificate.WriteFile Certificate.oldCertificateIdentityPath "key 1";
         Certificate.Rename Certificate.certificatePath Certificate.oldCertificatePath ]
       (recover case2b)).1 in
  let restored d :=
    errors d = None
    /\ Certificate.currentPair (recover d) = (Some "chain 1", Some "key 1")
    /\ recover d !! Certificate.oldCertificatePath = None
    /\ recover d !! Certificate.oldCertificateIdentityPath = None in
  (Certificate.classify case1 = Certificate.Case1 /\ restored case1)
  /\ (Certificate.classify case2a = Certificate.Case2a /\ restored case2a)
  /\ (Certificate.classify case2b = Certificate.Case2b /\ restored case2b)
  /\ (Certificate.classify case2c = Certificate.Case2c /\ restored case2c).
Proof. destruct identityFirst; cbv zeta; repeat split; vm_compute; reflexivity. Qed.

(* ===================================================================== *)
(*  Further properties of the code                                       *)
(* ===================================================================== *)

(* --------------------------------------------------------------------- *)
(*  lib/LetsEncryptServer.js                                             *)
(* --------------------------------------------------------------------- *)

(** X1: for a type that is a non-negative integer, as the values of the
    enumeration are, the name and the endpoint of a server are defined
    for the same types, exactly 0 to 3 (PRODUCTION to MOCK), and both
    read undefined for a larger one. *)
Theorem server_name_and_endpoint_defined (s : LetsEncryptServer.t) :
  (is_Some (LetsEncryptServer.name s)
   <-> LetsEncryptServer.type s <= LetsEncryptServer.MOCK)
  /\ (is_Some (LetsEncryptServer.endpoint s)
      <-> LetsEncryptServer.type s <= LetsEncryptServer.MOCK)
  /\ (LetsEncryptServer.MOCK < LetsEncryptServer.type s ->
      LetsEncryptServer.name s = None /\ LetsEncryptServer.endpoint s = None).
Proof.
  unfold LetsEncryptServer.name, LetsEncryptServer.endpoint, LetsEncryptServer.MOCK.
  rewrite !lookup_lt_is_Some. cbn [length LetsEncryptServer.names LetsEncryptServer.endpoints].
  repeat split; try lia; apply lookup_ge_None; cbn; lia.
Qed.

(** X2: no two server types share an endpoint or a name: two servers
    with the same endpoint, or with the same name, have the same type. *)
Theorem server_endpoint_determines_type (s1 s2 : LetsEncryptServer.t) (e : string) :
  (LetsEncryptServer.endpoint s1 = Some e ->
   LetsEncryptServer.endpoint s2 = Some e ->
   LetsEncryptServer.type s1 = LetsEncryptServer.type s2)
  /\ (LetsEncryptServer.name s1 = Some e ->
      LetsEncryptServer.name s2 = Some e ->
      LetsEncryptServer.type s1 = LetsEncryptServer.type s2).
Proof.
  destruct s1 as [t1], s2 as [t2].
  unfold LetsEncryptServer.endpoint, LetsEncryptServer.name. cbn [LetsEncryptServer.type].
  unfold LetsEncryptServer.endpoints, LetsEncryptServer.names.
  split; intros H1 H2;
    destruct t1 as [|[|[|[|t1]]]]; destruct t2 as [|[|[|[|t2]]]];
    try reflexivity; cbn in H1, H2;
    try discriminate H1; try discriminate H2;
    rewrite <- H2 in H1; discriminate H1.
Qed.

(* --------------------------------------------------------------------- *)
(*  lib/Identity.js                                                      *)
(* --------------------------------------------------------------------- *)


(** X4: an identity is never rotated: once the identity file exists, the
    constructor does not depend on the entropy at hand, and when it
    succeeds it leaves the whole disk, the identity file included, as it
    was. *)
Theorem identity_never_rotated `{JoseJWK}
    (configuration : gmap string string) (pathKey path : string)
    (entropy entropy' : N) (disk : fs.t) (f : fs.file) :
  configuration !! pathKey = Some path ->
  fs.files disk !! path = Some f ->
  Identity.constructor configuration pathKey entropy disk
  = Identity.constructor configuration pathKey entropy' disk
  /\ forall this disk',
       Identity.constructor configuration pathKey entropy disk = Ok (this, disk') ->
       disk' = disk /\ JWK_asKey (fs.data f) = Some (Identity.key this).
Proof.
  intros Hc Hf. rewrite !(constructor_loads _ _ _ _ _ _ Hc Hf).
  split; [reflexivity|]. intros this disk'.
  destruct (JWK_asKey (fs.data f)); [|discriminate].
  intros [= <- <-]. split; reflexivity.
Qed.

Lemma identity_never_rotated_witness :
  let disk :=
    {| fs.files := {[ "account-identity.pem" :=
                        {| fs.data := "RSA PRIVATE KEY"; fs.mode := fs.mode_0600 |} ]};
       fs.umask := fs.umask_0022 |} in
  @Identity.constructor Sample.jwk Sample.settings "accountIdentityPath" 1 disk
  = @Identity.constructor Sample.jwk Sample.settings "accountIdentityPath" 2 disk.
Proof.
  intros disk.
  exact (proj1 (@identity_never_rotated Sample.jwk Sample.settings
                  "accountIdentityPath" "account-identity.pem" 1 2 disk
                  {| fs.data := "RSA PRIVATE KEY"; fs.mode := fs.mode_0600 |}
                  eq_refl eq_refl)).
Defined.

(** X5: whenever the constructor succeeds, the identity's file path is
    the configured one, the file exists afterwards, and nothing else on
    the disk has changed: every other file and the umask are as before. *)
Theorem identity_constructor_frame `{JoseJWK}
    (configuration : gmap string string) (pathKey : string) (entropy : N)
    (disk disk' : fs.t) (this : Identity.t) :
  Identity.constructor configuration pathKey entropy disk = Ok (this, disk') ->
  configuration !! pathKey = Some (Identity.filePath this)
  /\ fs.existsSync disk' (Identity.filePath this) = true
  /\ fs.umask disk' = fs.umask disk
  /\ forall other, other <> Identity.filePath this ->
       fs.files disk' !! other = fs.files disk !! other.
Proof.
  intros Hrun.
  destruct (configuration !! pathKey) as [path|] eqn:Hc;
    [|unfold Identity.constructor in Hrun; rewrite Hc in Hrun; discriminate].
  destruct (fs.files disk !! path) as [f|] eqn:Hf.
  - rewrite (constructor_loads _ _ _ _ _ _ Hc Hf) in Hrun.
    destruct (JWK_asKey (fs.data f)); [|discriminate].
    injection Hrun as <- <-. cbn [Identity.filePath].
    split; [reflexivity|]. split; [exact (existsSync_true _ _ _ Hf)|].
    split; reflexivity.
  - rewrite (constructor_generates _ _ _ _ _ Hc Hf) in Hrun.
    injection Hrun as <- <-. cbn [Identity.filePath].
    split; [reflexivity|].
    split; [exact (existsSync_true _ _ _ (writeFileSync_new _ _ _ Hf))|].
    split; [reflexivity|].
    intros other Hne. now apply writeFileSync_other.
Qed.

Lemma identity_constructor_frame_witness :
  exists this disk',
    @Identity.constructor Sample.jwk Sample.settings "accountIdentityPath" 7
      Sample.emptyDisk = Ok (this, disk')
    /\ fs.existsSync disk' (Identity.filePath this) = true.
Proof.
  destruct (@Identity.constructor Sample.jwk Sample.settings "accountIdentityPath" 7
              Sample.emptyDisk) as [[this disk']|e] eqn:Hrun;
    [|vm_compute in Hrun; discriminate].
  exists this, disk'. split; [reflexivity|].
  exact (proj1 (proj2 (@identity_constructor_frame Sample.jwk Sample.settings
                         "accountIdentityPath" 7 Sample.emptyDisk disk' this Hrun))).
Defined.

(** X6: the identity is stable across restarts: when the constructor has
    generated and saved a key, every later construction from the disk it
    left, whatever the entropy, gives the very same identity (the same
    key, hence the same thumbprint and public JWK) and leaves the disk as
    it is; jose's import of a PEM it exported is taken to give back the
    key. *)
Theorem identity_reload_same_key `{JoseJWK}
    (configuration : gmap string string) (pathKey path : string)
    (entropy entropy' : N) (disk disk' : fs.t) (first : Identity.t) :
  (forall k, JWK_asKey (toPEM k true) = Some k) ->
  configuration !! pathKey = Some path ->
  fs.files disk !! path = None ->
  Identity.constructor configuration pathKey entropy disk = Ok (first, disk') ->
  Identity.constructor configuration pathKey entropy' disk' = Ok (first, disk')
  /\ forall again disk'',
       Identity.constructor configuration pathKey entropy' disk' = Ok (again, disk'') ->
       Identity.thumbprint again = Identity.thumbprint first
       /\ Identity.publicJWK again = Identity.publicJWK first.
Proof.
  intros Hjose Hc Hf Hrun.
  rewrite (constructor_generates _ _ _ _ _ Hc Hf) in Hrun.
  injection Hrun as Hfirst Hdisk.
  pose proof (writeFileSync_new disk path
                (toPEM (JWK_generate "RSA" 2048 entropy) true) Hf) as Hfile.
  rewrite Hdisk in Hfile.
  rewrite (constructor_loads _ _ _ _ _ _ Hc Hfile). cbn [fs.data].
  rewrite Hjose, Hfirst. split; [reflexivity|].
  intros again disk'' [= <- _]. split; reflexivity.
Qed.

Lemma identity_reload_same_key_witness :
  exists first disk',
    @Identity.constructor Sample.jwk Sample.settings "accountIdentityPath" 8 disk'
    = Ok (first, disk').
Proof.
  destruct (@Identity.constructor Sample.jwk Sample.settings "accountIdentityPath" 7
              Sample.emptyDisk) as [[first disk']|e] eqn:Hrun;
    [|vm_compute in Hrun; discriminate].
  exists first, disk'.
  exact (proj1 (@identity_reload_same_key Sample.jwk Sample.settings
                  "accountIdentityPath" "account-identity.pem" 7 8
                  Sample.emptyDisk disk' first (fun k => eq_refl) eq_refl eq_refl Hrun)).
Defined.

(* --------------------------------------------------------------------- *)
(*  lib/Order.js                                                         *)
(* --------------------------------------------------------------------- *)

Section OrderStates.
Variable newOrderRequest : list string -> option JValue.

(** What the first call leaves, from the initial state. *)
Lemma first_call_from_initial (d : list string) :
  Order.getSharedInstance newOrderRequest d Order.initial
  = (Order.Pending 0,
     {| Order.instance := Some 0;
        Order.isBeingInstantiatedViaSingletonFactoryMethod := false;
        Order.objects := [ {| Order.domains := d; Order.data := newOrderRequest d |} ];
        Order.awaiting := [ (0, bool_decide (is_Some (newOrderRequest d))) ];
        Order.calls := 1 |}).
Proof.
  unfold Order.getSharedInstance, Order.constructor, Order.init. cbn.
  destruct (newOrderRequest d); reflexivity.
Qed.

(** Once the instance exists no event changes the class's fields or the
    objects. *)
Lemma step_keeps_objects (ev : Order.Event) (C : Order.Class) (r : nat) :
  Order.instance C = Some r ->
  Order.isBeingInstantiatedViaSingletonFactoryMethod C = false ->
  let C' := (Order.step newOrderRequest ev C).2 in
  Order.instance C' = Some r
  /\ Order.isBeingInstantiatedViaSingletonFactoryMethod C' = false
  /\ Order.objects C' = Order.objects C.
Proof.
  intros Hi Hf. destruct ev as [d|d|k]; cbn.
  - rewrite (constructor_throws d C Hf). cbn. auto.
  - unfold Order.getSharedInstance. rewrite Hi. cbn. auto.
  - pose proof (resume_keeps k C) as Hk.
    destruct (Order.resume k C) as [p C']. cbn.
    destruct Hk as (-> & -> & -> & _). auto.
Qed.


(** A state reached from the initial one is the initial one, or has the
    instance 0, the flag down and exactly one object. *)
Lemma run_from_initial (evs : list Order.Event) :
  let C := (Order.run newOrderRequest evs Order.initial).2 in
  C = Order.initial
  \/ (Order.instance C = Some 0
      /\ Order.isBeingInstantiatedViaSingletonFactoryMethod C = false
      /\ length (Order.objects C) = 1).
Proof.
  induction evs as [|ev evs IH] using rev_ind; [now left|].
  assert (Hrun : forall C,
    (Order.run newOrderRequest (evs ++ [ev]) C).2
    = (Order.step newOrderRequest ev (Order.run newOrderRequest evs C).2).2).
  { clear IH. induction evs as [|e evs IHe]; intros C; cbn.
    - now destruct (Order.step newOrderRequest ev C).
    - destruct (Order.step newOrderRequest e C) as [o C1]. specialize (IHe C1).
      destruct (Order.run newOrderRequest (evs ++ [ev]) C1) as [os C2].
      destruct (Order.run newOrderRequest evs C1) as [os' C2']. exact IHe. }
  cbn zeta in *. rewrite Hrun.
  destruct IH as [->|(Hi & Hf & Hl)].
  - destruct ev as [d|d|k].
    + left. reflexivity.
    + right. unfold Order.step. rewrite first_call_from_initial. cbn. auto.
    + left. reflexivity.
  - right. destruct (step_keeps_objects ev _ 0 Hi Hf) as (Hi' & Hf' & Ho').
    rewrite Ho'. auto.
Qed.

End OrderStates.

(** X7: in the life of the class at most one Order object is ever
    constructed: after any events, the state is the initial one as long
    as no instance exists; when one exists it is the first object, the
    only one, and the factory flag is down. *)
Theorem order_at_most_one_object (newOrderRequest : list string -> option JValue)
    (evs : list Order.Event) :
  let C := (Order.run newOrderRequest evs Order.initial).2 in
  (Order.instance C = None -> C = Order.initial)
  /\ (forall r, Order.instance C = Some r ->
        r = 0 /\ length (Order.objects C) = 1)
  /\ length (Order.objects C) <= 1
  /\ Order.isBeingInstantiatedViaSingletonFactoryMethod C = false.
Proof.
  intros C. subst C.
  destruct (run_from_initial newOrderRequest evs) as [->|(Hi & Hf & Hl)].
  - repeat split; try discriminate. cbn. lia.
  - rewrite Hi, Hl. repeat split; try discriminate; try congruence; try lia.
Qed.



(* --------------------------------------------------------------------- *)
(*  index.js: how main ends                                              *)
(* --------------------------------------------------------------------- *)

(** X9: how a run of main ends. If the HEAD for a nonce is not answered
    with 200, main throws bent's StatusError and nothing is signed or
    posted; if signing throws, main throws that error. Otherwise the
    registration is posted, and main ends normally only when the server
    rejects it (a status other than 200 and 201), keeping the error's
    body; when the server accepts it, main throws a TypeError after the
    try/catch, for responseBody was never set. *)
Theorem main_outcome `{JoseJWS}
    (network : HttpRequest -> HttpResponse) (identity : Index.identity_t)
    (directory : Index.directory_t) :
  let head := network (bent.build "HEAD" (Index.newNonceUrl directory) "" None []) in
  let protectedHeader :=
    Index.main_protectedHeader identity
      (header "replay-nonce" (responseHeaders head)) directory in
  let signing :=
    JWS_sign_flattened Index.main_payload (Index.OKPKey identity) protectedHeader in
  (statusCode head <> 200 ->
   Index.main network identity directory
   = Throw (StatusError (statusCode head) (responseBody head)))
  /\ (statusCode head = 200 ->
      forall e, signing = Throw e ->
        Index.main network identity directory = Throw e)
  /\ (statusCode head = 200 ->
      forall signed, signing = Ok signed ->
        let post :=
          network (bent.build "POST" (Index.newAccountUrl directory) ""
                     (Some {| payload := base64url (payload signed);
                              protected := base64url (protected signed);
                              signature := signature signed |})
                     Index.main_headers) in
        (statusCode post = 200 \/ statusCode post = 201 ->
         Index.main network identity directory = Throw TypeError)
        /\ (~ (statusCode post = 200 \/ statusCode post = 201) ->
            exists run,
              Index.main network identity directory = Ok run
              /\ Index.run_newAccountResponse run = None
              /\ Index.run_responseBody run = Some (responseBody post))).
Proof.
  intros head protectedHeader signing.
  unfold Index.main, Index.main_register. rewrite request_accepts.
  fold head. cbn [bent.acceptable].
  split; [|split].
  - intros Hno. rewrite bool_decide_eq_false_2; [reflexivity|].
    now rewrite list_elem_of_singleton.
  - intros Hok e He. rewrite bool_decide_eq_true_2 by (now rewrite list_elem_of_singleton).
    cbn [bind]. fold protectedHeader. fold signing. now rewrite He.
  - intros Hok signed Hs.
    rewrite bool_decide_eq_true_2 by (now rewrite list_elem_of_singleton).
    cbn [bind]. fold protectedHeader. fold signing. rewrite Hs. cbn [bind].
    unfold Index.newAccountRequest, bent.request_json. rewrite request_accepts.
    set (post := network _). cbn [bent.acceptable Index.run_responseBody].
    split.
    + intros Hacc. apply elem_of_200_201 in Hacc.
      rewrite (bool_decide_eq_true_2 _ Hacc). cbn [bind].
      destruct (JSON_parse (responseBody post)); reflexivity.
    + intros Hrej. rewrite <- elem_of_200_201 in Hrej.
      rewrite (bool_decide_eq_false_2 _ Hrej). cbn [bind].
      eexists. split; [reflexivity|]. split; reflexivity.
Qed.

(** X10: the nonce of the registration is whatever the HEAD response
    carries as replay-nonce, unchecked: a run of main that reaches the
    POST had its HEAD answered with 200 and has put that header's value,
    or undefined when the response has no such header, as the nonce of
    the protected header it signed. *)
Theorem main_nonce_is_unchecked `{JoseJWS}
    (network : HttpRequest -> HttpResponse) (identity : Index.identity_t)
    (directory : Index.directory_t) (run : Index.Run) :
  Index.main_register network identity directory = Ok run ->
  let head := network (bent.build "HEAD" (Index.newNonceUrl directory) "" None []) in
  statusCode head = 200
  /\ Index.run_newNonce run = header "replay-nonce" (responseHeaders head)
  /\ get "nonce" (Index.run_protectedHeader run)
     = Some (header "replay-nonce" (responseHeaders head))
  /\ (responseHeaders head = [] ->
      get "nonce" (Index.run_protectedHeader run) = Some JUndefined).
Proof.
  intros Hrun head. unfold Index.main_register in Hrun.
  rewrite request_accepts in Hrun. fold head in Hrun. cbn [bent.acceptable] in Hrun.
  destruct (bool_decide (statusCode head ∈ [200])) eqn:Hs; [|discriminate].
  apply bool_decide_eq_true_1, list_elem_of_singleton in Hs.
  cbn [bind] in Hrun.
  destruct (JWS_sign_flattened _ _ _) as [signed|e]; [|discriminate].
  cbn [bind] in Hrun. injection Hrun as <-. cbn [Index.run_newNonce Index.run_protectedHeader].
  split; [exact Hs|]. split; [reflexivity|]. split; [reflexivity|].
  intros ->. reflexivity.
Qed.

Lemma main_nonce_is_unchecked_witness :
  let silent : HttpRequest -> HttpResponse :=
    fun _ => {| statusCode := 200; responseHeaders := []; responseBody := "" |} in
  exists run,
    @Index.main_register Sample.jwk Sample.jws silent Sample.identity Sample.directory
    = Ok run
    /\ get "nonce" (Index.run_protectedHeader run) = Some JUndefined.
Proof.
  intros silent.
  destruct (@Index.main_register Sample.jwk Sample.jws silent Sample.identity
              Sample.directory) as [run|e] eqn:Hrun;
    [|vm_compute in Hrun; discriminate].
  exists run. split; [reflexivity|].
  destruct (@main_nonce_is_unchecked Sample.jwk Sample.jws silent Sample.identity
              Sample.directory run Hrun) as (_ & _ & _ & Hmissing).
  exact (Hmissing eq_refl).
Defined.

(* --------------------------------------------------------------------- *)
(*  test/lib/Certificate.js: setup                                       *)
(* --------------------------------------------------------------------- *)

(** X11: setup never configures the production server, and the server
    type it chooses always has its domains: with STAGING set (to a
    string that is not empty) it is the staging server with the host's
    name and its www name, otherwise the local Pebble server with
    localhost and pebble; the domains are never undefined. *)
Theorem setup_never_production (hostname homedir : string)
    (path_join : list string -> string) (STAGING : option string) (disk : fs.t) :
  let configuration :=
    (CertificateTest.setup hostname homedir path_join STAGING disk).1 in
  LetsEncryptServer.endpoint (CertificateTest.server configuration)
  <> LetsEncryptServer.endpoint
       (LetsEncryptServer.constructor LetsEncryptServer.PRODUCTION)
  /\ (CertificateTest.truthy STAGING = true ->
      LetsEncryptServer.name (CertificateTest.server configuration) = Some "staging"
      /\ CertificateTest.domains configuration
         = Some [ hostname; "www." ++ hostname ])
  /\ (CertificateTest.truthy STAGING = false ->
      LetsEncryptServer.name (CertificateTest.server configuration) = Some "pebble"
      /\ CertificateTest.domains configuration = Some [ "localhost"; "pebble" ])
  /\ is_Some (CertificateTest.domains configuration).
Proof.
  intros configuration. subst configuration.
  unfold CertificateTest.setup, CertificateTest.letsEncryptServerType. cbn [fst].
  destruct (CertificateTest.truthy STAGING);
    cbn [CertificateTest.server CertificateTest.domains];
    (split; [discriminate|]);
    (split; [intros Ht; try discriminate Ht; split; reflexivity|]);
    (split; [intros Ht; try discriminate Ht; split; reflexivity|]);
    eexists; reflexivity.
Qed.
